(** * Android Package Puller: the selection and parsing logic of main.go

    A shallow embedding of [getDevice], [getPackageList], [getPackage],
    [readInputNumber], [printError] and [main], with the few functions of
    the Go library they call ([strings.TrimSpace], [strings.HasPrefix],
    [strings.Split], [strings.SplitN], [strconv.Atoi], [bufio.ReadString]).

    Go strings are byte sequences: they are [string] here, a list of
    [ascii] bytes.  Go's [int] is taken as the 64-bit one and kept in [Z].
    Formatted output is kept symbolic: a call [fmt.Printf(format, args...)]
    is the event [Fmt format args] on the stream it writes to. *)

From Stdlib Require Import String Ascii List ZArith Lia Bool.
Import ListNotations.

Open Scope string_scope.
Open Scope list_scope.
Open Scope Z_scope.

(** Go's [+] on strings. *)
Infix "+++" := String.append (at level 60, right associativity).

(* ================================================================= *)
(** ** Strings *)

Module strings.

(** [len(s)], in bytes. *)
Definition len (s : string) : Z := Z.of_nat (String.length s).

(** The byte as a number, for range tests. *)
Definition code (c : ascii) : N := N_of_ascii c.

(** [s[n:]]; Go panics when [n > len(s)], all uses below are guarded. *)
Fixpoint sliceFrom (s : string) (n : nat) : string :=
  match n, s with
  | O, _ => s
  | S n', String _ s' => sliceFrom s' n'
  | S _, EmptyString => EmptyString
  end.

(** [strings.HasPrefix(s, prefix)]. *)
Fixpoint HasPrefix (s prefix : string) {struct prefix} : bool :=
  match prefix with
  | EmptyString => true
  | String p prefix' =>
      match s with
      | String c s' => Ascii.eqb c p && HasPrefix s' prefix'
      | EmptyString => false
      end
  end.

(** The two halves of [s] around the first [sep]:
    [s[:m]] and [s[m+1:]] for [m = strings.Index(s, sep)], or [None] when
    [m < 0].  The separator is one byte, as at both call sites. *)
Fixpoint Cut (s : string) (sep : ascii) : option (string * string) :=
  match s with
  | EmptyString => None
  | String c s' =>
      if Ascii.eqb c sep then Some (EmptyString, s')
      else match Cut s' sep with
           | Some (before, after) => Some (String c before, after)
           | None => None
           end
  end.

(** [strings.Count(s, sep)]. *)
Fixpoint Count (s : string) (sep : ascii) : nat :=
  match s with
  | EmptyString => O
  | String c s' => if Ascii.eqb c sep then S (Count s' sep) else Count s' sep
  end.

(** The loop of [genSplit]: at most [n] cuts, the rest of [s] last. *)
Fixpoint genSplit (s : string) (sep : ascii) (n : nat) : list string :=
  match n with
  | O => [s]
  | S n' =>
      match Cut s sep with
      | None => [s]
      | Some (before, after) => before :: genSplit after sep n'
      end
  end.

(** [strings.SplitN(s, sep, n)]: nothing for [n = 0], every piece for
    [n < 0], else at most [n] pieces (and never more than [len(s) + 1]). *)
Definition SplitN (s : string) (sep : ascii) (n : Z) : list string :=
  if n =? 0 then []
  else
    let n := if n <? 0 then Z.of_nat (Count s sep) + 1 else n in
    let n := if n >? len s + 1 then len s + 1 else n in
    genSplit s sep (Z.to_nat (n - 1)).

(** [strings.Split(s, sep)]. *)
Definition Split (s : string) (sep : ascii) : list string := SplitN s sep (-1).

(** *** White space, as defined by Unicode

    [unicode.IsSpace] holds of U+0009..U+000D, U+0020, U+0085, U+00A0,
    U+1680, U+2000..U+200A, U+2028, U+2029, U+202F, U+205F and U+3000.
    [TrimSpace] decodes UTF-8 from either end; a rune is white space
    exactly when the bytes at that end are its (unique) encoding. *)

Definition asciiSpace (b : N) : bool :=
  ((9 <=? b) && (b <=? 13) || (b =? 32))%N.

(** Width in bytes of the white-space rune encoded by [b0 b1 b2], the
    first bytes of a string (256 stands for a missing byte); 0 if none. *)
Definition spaceWidth (b0 b1 b2 : N) : nat :=
  if asciiSpace b0 then 1%nat
  else if ((b0 =? 194) && ((b1 =? 133) || (b1 =? 160)))%N then 2%nat
  else if ((b0 =? 225) && (b1 =? 154) && (b2 =? 128))%N then 3%nat
  else if ((b0 =? 226) && (b1 =? 128) &&
           ((128 <=? b2) && (b2 <=? 138) || (b2 =? 168) || (b2 =? 169) || (b2 =? 175)))%N
       then 3%nat
  else if ((b0 =? 226) && (b1 =? 129) && (b2 =? 159))%N then 3%nat
  else if ((b0 =? 227) && (b1 =? 128) && (b2 =? 128))%N then 3%nat
  else 0%nat.

Definition leadingSpace (s : string) : nat :=
  match s with
  | EmptyString => 0%nat
  | String c0 EmptyString => spaceWidth (code c0) 256 256
  | String c0 (String c1 EmptyString) => spaceWidth (code c0) (code c1) 256
  | String c0 (String c1 (String c2 _)) => spaceWidth (code c0) (code c1) (code c2)
  end.

(** The same at the other end, on the reversed bytes: a rune of width 1
    is the last byte; of width 2, the last two; of width 3, the last three. *)
Definition trailingSpace (r : string) : nat :=
  match r with
  | EmptyString => 0%nat
  | String c0 r1 =>
      if asciiSpace (code c0) then 1%nat
      else match r1 with
           | EmptyString => 0%nat
           | String c1 r2 =>
               if Nat.eqb (spaceWidth (code c1) (code c0) 256) 2 then 2%nat
               else match r2 with
                    | EmptyString => 0%nat
                    | String c2 _ =>
                        if Nat.eqb (spaceWidth (code c2) (code c1) (code c0)) 3
                        then 3%nat else 0%nat
                    end
           end
  end.

Fixpoint trimWith (width : string -> nat) (fuel : nat) (s : string) : string :=
  match fuel with
  | O => s
  | S fuel' =>
      match width s with
      | O => s
      | w => trimWith width fuel' (sliceFrom s w)
      end
  end.

Fixpoint rev (s : string) : string :=
  match s with
  | EmptyString => EmptyString
  | String c s' => rev s' +++ String c EmptyString
  end.

(** [strings.TrimLeftFunc(s, unicode.IsSpace)]. *)
Definition TrimLeftSpace (s : string) : string :=
  trimWith leadingSpace (String.length s) s.

(** [strings.TrimRightFunc(s, unicode.IsSpace)]. *)
Definition TrimRightSpace (s : string) : string :=
  rev (trimWith trailingSpace (String.length s) (rev s)).

(** [strings.TrimSpace(s)]. *)
Definition TrimSpace (s : string) : string :=
  TrimRightSpace (TrimLeftSpace s).

End strings.

(* ================================================================= *)
(** ** Errors and formatted text *)

(** An error value, and an operand of a formatting call.  [AErr e] is the
    text [e.Error()], whether the call passes [err.Error()] or [err]
    itself under a [%s] verb. *)
Inductive error : Type :=
| Errorf (format : string) (args : list arg)   (* fmt.Errorf(format, args...) *)
| NumError (Num : string) (Err : error)        (* strconv.NumError *)
| ErrSyntax                                    (* strconv.ErrSyntax *)
| ErrRange                                     (* strconv.ErrRange *)
| EOF                                          (* io.EOF *)
| BridgeError (text : string)                  (* an error of package adb *)
with arg : Type :=
| AString (s : string)
| AInt (i : Z)
| AErr (e : error).

(** One formatting call: the format and its operands. *)
Record Fmt : Type := mkFmt { format : string; operands : list arg }.

(** What a Go function with results [(T, error)] gives back, and the
    run-time panic of an index out of range. *)
Inductive result (A : Type) : Type :=
| Ok (a : A)
| Err (e : error)
| Panic.
Arguments Ok {A} a.
Arguments Err {A} e.
Arguments Panic {A}.

(** Line feed and tab bytes of the format strings. *)
Definition LF : string := String "010" EmptyString.
Definition TAB : string := String "009" EmptyString.

(* ================================================================= *)
(** ** strconv.Atoi *)

Module strconv.

Definition maxUint64 : Z := 2 ^ 64 - 1.

(** The digit loop of [ParseUint(s, 10, 64)]: the value, or the kind of
    failure ([ErrSyntax] at a byte that is no digit, [ErrRange] as soon
    as the value leaves 64 bits). *)
Fixpoint digits (s : string) (n : Z) : Z + error :=
  match s with
  | EmptyString => inl n
  | String c s' =>
      let b := Z.of_N (N_of_ascii c) in
      if (48 <=? b) && (b <=? 57) then
        if n >=? maxUint64 / 10 + 1 then inr ErrRange
        else
          let n1 := n * 10 + (b - 48) in
          if n1 >? maxUint64 then inr ErrRange else digits s' n1
      else inr ErrSyntax
  end.

Definition ParseUint (s : string) : Z + error :=
  match s with
  | EmptyString => inr ErrSyntax
  | _ => digits s 0
  end.

(** [strconv.Atoi(s)], that is [ParseInt(s, 10, 0)] with a 64-bit [int]:
    an optional sign, then decimal digits only; the pair [(i, err)]. *)
Definition Atoi (s : string) : Z * option error :=
  match s with
  | EmptyString => (0, Some (NumError s ErrSyntax))
  | String c s' =>
      let neg := Ascii.eqb c "-" in
      let body := if Ascii.eqb c "+" || neg then s' else s in
      let cutoff := 2 ^ 63 in
      let ranged (un : Z) :=
        if negb neg && (un >=? cutoff) then (cutoff - 1, Some (NumError s ErrRange))
        else if neg && (un >? cutoff) then (- cutoff, Some (NumError s ErrRange))
        else (if neg then - un else un, None) in
      match ParseUint body with
      | inl un => ranged un
      | inr ErrRange => ranged maxUint64
      | inr _ => (0, Some (NumError s ErrSyntax))
      end
  end.

End strconv.

(* ================================================================= *)
(** ** The world the program runs in *)

(** [adb.Device]; the program reads [Serial] and [State] only. *)
Record Device : Type := mkDevice { Serial : string; State : string }.

(** [type Package struct { Name string; Path string }]. *)
Record Package : Type := mkPackage { Name : string; Path : string }.

(** A call [device.Pull(src, dst)]. *)
Record PullCall : Type := mkPull { pullDevice : Device; pullSrc : string; pullDst : string }.

(** Package adb, the device bridge: what its three operations answer. *)
Record Bridge : Type := mkBridge {
  Devices : result (list Device);                    (* adb.Devices() *)
  Call : Device -> list string -> result string;     (* device.Command(name, args...).Call() *)
  Pull : Device -> string -> string -> option error  (* device.Pull(src, dst) *)
}.

(** [stdin] holds what the successive [Read]s of [os.Stdin] return, then
    end of file; [stdout] and [stderr] the formatting calls made so far,
    oldest first; [pulled] the pulls asked of the bridge. *)
Record World : Type := mkWorld {
  stdin : list string;
  stdout : list Fmt;
  stderr : list Fmt;
  pulled : list PullCall
}.

(** Computations over the world. *)
Definition M (A : Type) : Type := World -> A * World.

Definition ret {A : Type} (a : A) : M A := fun w => (a, w).

Definition bind {A B : Type} (m : M A) (k : A -> M B) : M B :=
  fun w => let (a, w') := m w in k a w'.

Declare Scope go_scope.
Delimit Scope go_scope with go.
Notation "x <- m ;; k" := (bind m (fun x => k))
  (at level 100, m at next level, right associativity) : go_scope.
Notation "m ;; k" := (bind m (fun _ => k))
  (at level 100, right associativity) : go_scope.
Open Scope go_scope.

(** [fmt.Printf(format, args...)]. *)
Definition Printf (format : string) (args : list arg) : M unit :=
  fun w => (tt, mkWorld (stdin w) (stdout w ++ [mkFmt format args]) (stderr w) (pulled w)).

(** [fmt.Fprintf(os.Stderr, format, args...)]. *)
Definition Fprintf_Stderr (format : string) (args : list arg) : M unit :=
  fun w => (tt, mkWorld (stdin w) (stdout w) (stderr w ++ [mkFmt format args]) (pulled w)).

(** [bufio.NewReader(os.Stdin).ReadString(delim)] on a reader made for
    this one call: it fills its buffer [Read] by [Read] until the buffer
    holds [delim] and returns the bytes up to and including it; at end of
    file it returns what it has with [io.EOF].  What it buffered past
    [delim] goes with the reader. *)
Fixpoint fill (delim : ascii) (buf : string) (reads : list string)
  : (string * option error) * list string :=
  match strings.Cut buf delim with
  | Some (line, _) => (line +++ String delim EmptyString, None, reads)
  | None =>
      match reads with
      | [] => (buf, Some EOF, [])
      | chunk :: reads' => fill delim (buf +++ chunk) reads'
      end
  end.

Definition ReadString (delim : ascii) : M (string * option error) :=
  fun w =>
    let '(r, rest) := fill delim EmptyString (stdin w) in
    (r, mkWorld rest (stdout w) (stderr w) (pulled w)).

(** [device.Pull(src, dst)], noted in the world. *)
Definition DevicePull (adb : Bridge) (device : Device) (src dst : string) : M (option error) :=
  fun w => (Pull adb device src dst,
            mkWorld (stdin w) (stdout w) (stderr w) (pulled w ++ [mkPull device src dst])).

(* ================================================================= *)
(** ** The program *)

Import strings.

(** [func printError(format string, args ...interface{}) error]. *)
Definition printError (format : string) (args : list arg) : M error :=
  let err := Errorf format args in
  Fprintf_Stderr ("%s" +++ LF) [AErr err] ;;
  ret err.

(** [func readInputNumber(prompt string, min int, max int) (int, error)]. *)
Definition readInputNumber (prompt : string) (min max : Z) : M (result Z) :=
  Printf "%s [%d-%d]: " [AString prompt; AInt min; AInt max] ;;
  r <- ReadString "010" ;;
  let '(input, err) := r in
  let input := match err with None => TrimSpace input | Some _ => input end in
  if (match err with Some _ => true | None => false end) || (len input =? 0) then
    e <- printError "Input cancelled" [] ;; ret (Err e)
  else
    match strconv.Atoi input with
    | (_, Some err) =>
        e <- printError "Invalid input: %s" [AErr err] ;; ret (Err e)
    | (index, None) =>
        if (index <? min) || (index >? max) then
          e <- printError "Input out of range: %d" [AInt index] ;; ret (Err e)
        else ret (Ok index)
    end.

(** [xs[index]]: a panic when the index is out of range. *)
Definition at_index {A : Type} (xs : list A) (index : Z) : result A :=
  if (index <? 0) || (index >=? Z.of_nat (List.length xs)) then Panic
  else match nth_error xs (Z.to_nat index) with
       | Some x => Ok x
       | None => Panic
       end.

(** [for i, x := range xs { body(i, x) }], from index [i]. *)
Fixpoint forRange {A : Type} (body : Z -> A -> M unit) (i : Z) (xs : list A) : M unit :=
  match xs with
  | [] => ret tt
  | x :: xs' => body i x ;; forRange body (i + 1) xs'
  end.

(** [func getDevice], from a slice of devices to a device or an error, the
    global [deviceSerial] made a parameter. *)
Definition getDevice (deviceSerial : string) (devices : list Device) : M (result Device) :=
  located <-
    (if len deviceSerial >? 0 then
       match find (fun device => String.eqb (Serial device) deviceSerial) devices with
       | Some device => ret (Some device)
       | None => Printf ("Warning: Could not locate device." +++ LF) [] ;; ret None
       end
     else ret None) ;;
  match located with
  | Some device => ret (Ok device)
  | None =>
      if Z.of_nat (List.length devices) =? 1 then
        match at_index devices 0 with
        | Ok device0 =>
            Printf ("Device: %s" +++ LF) [AString (Serial device0)] ;;
            ret (Ok device0)
        | _ => ret Panic
        end
      else
        Printf ("Devices:" +++ LF) [] ;;
        forRange (fun i device =>
                    Printf (TAB +++ "%d:" +++ TAB +++ "%s %s" +++ LF)
                           [AInt i; AString (Serial device); AString (State device)])
                 0 devices ;;
        r <- readInputNumber "Which device?" 0 (Z.of_nat (List.length devices) - 1) ;;
        match r with
        | Ok index => ret (at_index devices index)
        | Err err => ret (Err err)
        | Panic => ret Panic
        end
  end.

(** The body of the loop over the lines in [getPackageList]: [packages]
    so far, one [line]. *)
Definition packageLine (packages : list Package) (line : string) : M (list Package) :=
  let line := TrimSpace line in
  if negb (HasPrefix line "package:") then ret packages
  else
    match SplitN (sliceFrom line 8) "=" 2 with
    | [part0; part1] => ret (packages ++ [mkPackage part1 part0])
    | _ =>
        printError "Bad package manager response: '%s'" [AString line] ;;
        ret packages
    end.

(** [for _, line := range lines { ... }]. *)
Fixpoint packageLines (packages : list Package) (lines : list string) : M (list Package) :=
  match lines with
  | [] => ret packages
  | line :: lines' =>
      packages' <- packageLine packages line ;;
      packageLines packages' lines'
  end.

(** [func getPackageList], from a device to its packages or an error. *)
Definition getPackageList (adb : Bridge) (device : Device) : M (result (list Package)) :=
  match Call adb device ["pm"; "list"; "packages"; "-f"] with
  | Err err =>
      Printf ("Failed list root: %s" +++ LF) [AErr err] ;;
      e <- printError "Failed to retrieve packages: %s" [AErr err] ;;
      ret (Err e)
  | Panic => ret Panic
  | Ok data =>
      let lines := Split data "010" in
      packages <- packageLines [] lines ;;
      if Z.of_nat (List.length packages) =? 0 then
        e <- printError "No packages found" [] ;; ret (Err e)
      else ret (Ok packages)
  end.

(** [func getPackage], from a slice of packages to one of them or an error, the global
    [packageName] made a parameter. *)
Definition getPackage (packageName : string) (pkgs : list Package) : M (result Package) :=
  if len packageName >? 0 then
    match find (fun pkg => String.eqb (Name pkg) packageName) pkgs with
    | Some pkg => ret (Ok pkg)
    | None =>
        e <- printError "Could not locate package: %s" [AString packageName] ;;
        ret (Err e)
    end
  else
    Printf ("Packages:" +++ LF) [] ;;
    forRange (fun i pkg =>
                Printf (TAB +++ "%d:" +++ TAB +++ "%s %s" +++ LF)
                       [AInt i; AString (Name pkg); AString (Path pkg)])
             0 pkgs ;;
    r <- readInputNumber "Which package?" 0 (Z.of_nat (List.length pkgs) - 1) ;;
    match r with
    | Ok index => ret (at_index pkgs index)
    | Err err => ret (Err err)
    | Panic => ret Panic
    end.

(** [func main()], after [flag.Parse()] has set the two globals; the
    result is the exit status of the process (2 for a run-time panic). *)
Definition main (adb : Bridge) (packageName deviceSerial : string) : M Z :=
  match Devices adb with
  | Err err =>
      printError ("Failed to get list of devices: %s" +++ LF) [AErr err] ;;
      ret 1
  | Panic => ret 2
  | Ok devices =>
      d <- getDevice deviceSerial devices ;;
      match d with
      | Err _ => ret 1
      | Panic => ret 2
      | Ok device =>
          ps <- getPackageList adb device ;;
          match ps with
          | Err _ => ret 1
          | Panic => ret 2
          | Ok pkgs =>
              p <- getPackage packageName pkgs ;;
              match p with
              | Err _ => ret 1
              | Panic => ret 2
              | Ok pkg =>
                  let apkName := Name pkg +++ ".apk" in
                  Printf "Pulling %s from device... " [AString apkName] ;;
                  err <- DevicePull adb device (Path pkg) apkName ;;
                  match err with
                  | None => Printf ("Success" +++ LF) [] ;; ret 0
                  | Some err =>
                      Printf ("Failed" +++ LF) [] ;;
                      printError "Failed to pull package from device: %s" [AErr err] ;;
                      ret 1
                  end
              end
          end
      end
  end.

(* ================================================================= *)
(** ** Notions the statements are written with *)

(** The pieces of [s] between the occurrences of [sep], by recursion on
    [s]: what [Split] computes cut by cut. *)
Fixpoint pieces (s : string) (sep : ascii) : list string :=
  match s with
  | EmptyString => [EmptyString]
  | String c s' =>
      if Ascii.eqb c sep then EmptyString :: pieces s' sep
      else match pieces s' sep with
           | piece :: rest => String c piece :: rest
           | [] => [String c EmptyString]
           end
  end.

(** The record a line of the package manager stands for, if any. *)
Definition parseLine (line : string) : option Package :=
  let line := TrimSpace line in
  if HasPrefix line "package:" then
    match Cut (sliceFrom line 8) "=" with
    | Some (path, name) => Some (mkPackage name path)
    | None => None
    end
  else None.

(** A line with the prefix and no [=] after it. *)
Definition malformed (line : string) : bool :=
  let line := TrimSpace line in
  HasPrefix line "package:" &&
  match Cut (sliceFrom line 8) "=" with Some _ => false | None => true end.

(** What [printError] writes for the error [e]. *)
Definition errorLine (e : error) : Fmt := mkFmt ("%s" +++ LF) [AErr e].

Definition badResponse (line : string) : error :=
  Errorf "Bad package manager response: '%s'" [AString (TrimSpace line)].

(** The records of a sequence of lines, in order, and the warnings. *)
Definition records (lines : list string) : list Package :=
  flat_map (fun line => match parseLine line with Some pkg => [pkg] | None => [] end) lines.

Definition warnings (lines : list string) : list Fmt :=
  flat_map (fun line => if malformed line then [errorLine (badResponse line)] else []) lines.

(** The world after more output. *)
Definition printed (w : World) (events : list Fmt) : World :=
  mkWorld (stdin w) (stdout w ++ events) (stderr w) (pulled w).

Definition logged (w : World) (events : list Fmt) : World :=
  mkWorld (stdin w) (stdout w) (stderr w ++ events) (pulled w).

(** The numbered listing of the devices, and of the packages, from [i]. *)
Fixpoint deviceListing (i : Z) (devices : list Device) : list Fmt :=
  match devices with
  | [] => []
  | device :: rest =>
      mkFmt (TAB +++ "%d:" +++ TAB +++ "%s %s" +++ LF)
            [AInt i; AString (Serial device); AString (State device)]
      :: deviceListing (i + 1) rest
  end.

Fixpoint packageListing (i : Z) (pkgs : list Package) : list Fmt :=
  match pkgs with
  | [] => []
  | pkg :: rest =>
      mkFmt (TAB +++ "%d:" +++ TAB +++ "%s %s" +++ LF)
            [AInt i; AString (Name pkg); AString (Path pkg)]
      :: packageListing (i + 1) rest
  end.

(** The prompt of [readInputNumber]. *)
Definition promptLine (prompt : string) (min max : Z) : Fmt :=
  mkFmt "%s [%d-%d]: " [AString prompt; AInt min; AInt max].

Definition isPrompt (f : Fmt) : bool := String.eqb (format f) "%s [%d-%d]: ".

(** No prompt between [w] and [w']: nothing was read and what was
    printed holds no prompt. *)
Definition unprompted (w w' : World) : Prop :=
  stdin w' = stdin w /\
  exists events, stdout w' = stdout w ++ events /\ forallb (fun f => negb (isPrompt f)) events = true.

(** The lines the selections print. *)
Definition warning : Fmt := mkFmt ("Warning: Could not locate device." +++ LF) [].
Definition announce (device : Device) : Fmt :=
  mkFmt ("Device: %s" +++ LF) [AString (Serial device)].
Definition devicesHeader : Fmt := mkFmt ("Devices:" +++ LF) [].
Definition packagesHeader : Fmt := mkFmt ("Packages:" +++ LF) [].
Definition pulling (apkName : string) : Fmt :=
  mkFmt "Pulling %s from device... " [AString apkName].

(** The errors of the program. *)
Definition cancelled : error := Errorf "Input cancelled" [].
Definition invalidInput (err : error) : error := Errorf "Invalid input: %s" [AErr err].
Definition outOfRange (index : Z) : error := Errorf "Input out of range: %d" [AInt index].
Definition notLocated (packageName : string) : error :=
  Errorf "Could not locate package: %s" [AString packageName].
Definition noPackages : error := Errorf "No packages found" [].
Definition pullFailed (err : error) : error :=
  Errorf "Failed to pull package from device: %s" [AErr err].

(** The command [getPackageList] runs on the device. *)
Definition pmList : list string := ["pm"; "list"; "packages"; "-f"].

(** The world once the pull of [pkg] from [device] was announced and asked. *)
Definition pullAsked (w : World) (device : Device) (pkg : Package) : World :=
  mkWorld (stdin w) (stdout w ++ [pulling (Name pkg +++ ".apk")]) (stderr w)
          (pulled w ++ [mkPull device (Path pkg) (Name pkg +++ ".apk")]).

(** Decimal numerals: an optional sign, then one digit or more. *)
Definition digitValue (c : ascii) : Z := Z.of_N (N_of_ascii c) - 48.

Definition isDigit (c : ascii) : bool := (0 <=? digitValue c) && (digitValue c <=? 9).

Fixpoint allDigits (s : string) : bool :=
  match s with
  | EmptyString => true
  | String c s' => isDigit c && allDigits s'
  end.

Fixpoint valueFrom (n : Z) (s : string) : Z :=
  match s with
  | EmptyString => n
  | String c s' => valueFrom (n * 10 + digitValue c) s'
  end.

Definition unsignedNumeral (s : string) : bool :=
  match s with
  | EmptyString => false
  | _ => allDigits s
  end.

Definition isNumeral (s : string) : bool :=
  match s with
  | EmptyString => false
  | String c s' =>
      if Ascii.eqb c "+" || Ascii.eqb c "-" then unsignedNumeral s' else allDigits s
  end.

Definition numeralValue (s : string) : Z :=
  match s with
  | EmptyString => 0
  | String c s' =>
      if Ascii.eqb c "-" then - valueFrom 0 s'
      else if Ascii.eqb c "+" then valueFrom 0 s'
      else valueFrom 0 s
  end.

(** The numerals [strconv.Atoi] reads into an [int] of 64 bits. *)
Definition fitsInt (s : string) : bool :=
  isNumeral s && (- 2 ^ 63 <=? numeralValue s) && (numeralValue s <=? 2 ^ 63 - 1).

(* ================================================================= *)
(** ** The command line *)

(** The two globals [init] registers as flags. *)
Record Globals : Type := mkGlobals { packageName : string; deviceSerial : string }.

(** [func init()]: the first two arguments after the program name are
    the defaults of the flags [-package] and [-device], and with that the
    first values of the globals. *)
Definition init (Args : list string) : Globals :=
  let defaultPackageName :=
    if Z.of_nat (List.length Args) >? 1 then nth 1 Args EmptyString else EmptyString in
  let defaultDeviceSerial :=
    if Z.of_nat (List.length Args) >? 2 then nth 2 Args EmptyString else EmptyString in
  mkGlobals defaultPackageName defaultDeviceSerial.

Module flag.

(** How [flag.Parse] ends: all flags read, [rest] being the arguments
    left; a failure, after which the process exits; or the usage asked
    for with [-h] or [-help]. *)
Inductive parsed : Type :=
| Done (vars : Globals) (rest : list string)
| Failed (e : error)
| ErrHelp.

(** The name of a flag and its value, if it has one after an [=] that
    is not the first byte. *)
Definition splitName (name : string) : string * option string :=
  match name with
  | EmptyString => (name, None)
  | String c tail =>
      match Cut tail "=" with
      | Some (n, value) => (String c n, Some value)
      | None => (name, None)
      end
  end.

(** The flags [init] defines. *)
Definition defined (name : string) : bool :=
  String.eqb name "package" || String.eqb name "device".

(** [flag.Value.Set] on a defined flag: the global it was bound to
    takes the value. *)
Definition set (vars : Globals) (name value : string) : Globals :=
  if String.eqb name "package" then mkGlobals value (deviceSerial vars)
  else mkGlobals (packageName vars) value.

Definition badName (name : string) : bool :=
  match name with
  | EmptyString => true
  | String c _ => Ascii.eqb c "-" || Ascii.eqb c "="
  end.

(** [flag.Parse()] over [os.Args[1:]], one [parseOne] after the other:
    an argument of fewer than two bytes or without a leading dash ends
    the flags, and so does [--]; a flag takes its value after [=] or
    from the next argument. *)
Fixpoint Parse (args : list string) (vars : Globals) : parsed :=
  match args with
  | [] => Done vars []
  | s :: args' =>
      match s with
      | String c0 (String c1 s2) =>
          if negb (Ascii.eqb c0 "-") then Done vars args
          else if Ascii.eqb c1 "-" && (len s2 =? 0) then Done vars args'
          else
            let name := if Ascii.eqb c1 "-" then s2 else String c1 s2 in
            if badName name then Failed (Errorf "bad flag syntax: %s" [AString s])
            else
              let (name, value) := splitName name in
              if negb (defined name) then
                if String.eqb name "help" || String.eqb name "h" then ErrHelp
                else Failed (Errorf "flag provided but not defined: -%s" [AString name])
              else
                match value with
                | Some value => Parse args' (set vars name value)
                | None =>
                    match args' with
                    | value :: args'' => Parse args'' (set vars name value)
                    | [] => Failed (Errorf "flag needs an argument: -%s" [AString name])
                    end
                end
      | _ => Done vars args
      end
  end.

End flag.

(** The globals when [main] has called [flag.Parse()]. *)
Definition configure (Args : list string) : flag.parsed :=
  flag.Parse (tl Args) (init Args).

(** An argument [flag.Parse] takes for a flag: two bytes or more, the
    first a dash. *)
Definition dashed (s : string) : bool :=
  match s with
  | String c (String _ _) => Ascii.eqb c "-"
  | _ => false
  end.

(* ================================================================= *)
(** ** ASCII white space around a text *)

Fixpoint asciiSpaces (s : string) : bool :=
  match s with
  | EmptyString => true
  | String c s' => asciiSpace (code c) && asciiSpaces s'
  end.

(** A byte of ASCII that is no white space. *)
Definition plain (c : ascii) : bool := (code c <? 128)%N && negb (asciiSpace (code c)).

Definition startsPlain (s : string) : bool :=
  match s with
  | String c _ => plain c
  | EmptyString => false
  end.

Definition endsPlain (s : string) : bool := startsPlain (rev s).

(** The error [e] is the last line on the error stream of [w]. *)
Definition reported (e : error) (w : World) : Prop :=
  exists earlier, stderr w = earlier ++ [errorLine e].

(** The last word of [main] on the pull. *)
Definition success : Fmt := mkFmt ("Success" +++ LF) [].
Definition failed : Fmt := mkFmt ("Failed" +++ LF) [].

(** A line of a numbered listing. *)
Definition menuLine (i : Z) (name detail : string) : Fmt :=
  mkFmt (TAB +++ "%d:" +++ TAB +++ "%s %s" +++ LF) [AInt i; AString name; AString detail].

(** The world after a prompt was printed and answered. *)
Definition answered (w : World) (events : list Fmt) (rest : list string) : World :=
  mkWorld rest (stdout w ++ events) (stderr w) (pulled w).

(** Sample data. *)
Module Sample.
Definition world (reads : list string) : World := mkWorld reads [] [] [].
Definition nexus : Device := mkDevice "0123456789ABCDEF" "device".
Definition emulator : Device := mkDevice "emulator-5554" "device".
Definition foo : Package := mkPackage "com.foo" "/data/app/com.foo.apk".
Definition bar : Package := mkPackage "com.bar" "/data/app/com.bar.apk".
Definition bridge (data : string) : Bridge :=
  mkBridge (Ok [nexus; emulator]) (fun _ _ => Ok data) (fun _ _ _ => None).
End Sample.

(* ================================================================= *)
(** ** Strings: cutting and splitting *)

Lemma gtb_false (a b : Z) : a <= b -> (a >? b) = false.
Proof. intros H. rewrite Z.gtb_ltb. apply Z.ltb_ge. lia. Qed.

Lemma len_pos (s : string) : s <> EmptyString <-> (len s >? 0) = true.
Proof.
  unfold len. destruct s; simpl.
  - split; [congruence | discriminate].
  - split; [reflexivity | discriminate].
Qed.

Lemma len_zero (s : string) : (len s =? 0) = true <-> s = EmptyString.
Proof.
  unfold len. destruct s; simpl; split; try reflexivity; discriminate.
Qed.

Lemma HasPrefix_append (p s : string) : HasPrefix (p +++ s) p = true.
Proof.
  induction p as [|c p IH]; simpl; [reflexivity|].
  now rewrite Ascii.eqb_refl, IH.
Qed.

Lemma HasPrefix_length (s p : string) :
  HasPrefix s p = true -> (String.length p <= String.length s)%nat.
Proof.
  revert s. induction p as [|c p IH]; intros s; simpl; [lia|].
  destruct s as [|d s]; [discriminate|].
  intros H. apply andb_true_iff in H as [_ H]. apply IH in H. simpl. lia.
Qed.

Lemma sliceFrom_append (p s : string) : sliceFrom (p +++ s) (String.length p) = s.
Proof. induction p as [|c p IH]; simpl; [now destruct s | exact IH]. Qed.

Lemma Cut_append (before after : string) (sep : ascii) :
  Cut before sep = None ->
  Cut (before +++ String sep after) sep = Some (before, after).
Proof.
  induction before as [|c before IH]; simpl; intros H.
  - now rewrite Ascii.eqb_refl.
  - destruct (Ascii.eqb c sep); [discriminate|].
    destruct (Cut before sep) as [[? ?]|]; [discriminate|].
    now rewrite IH.
Qed.

Lemma Cut_inv (s : string) (sep : ascii) (before after : string) :
  Cut s sep = Some (before, after) ->
  s = before +++ String sep after /\ Cut before sep = None.
Proof.
  revert before. induction s as [|c s IH]; simpl; intros before H; [discriminate|].
  destruct (Ascii.eqb c sep) eqn:E.
  - apply Ascii.eqb_eq in E. inversion H; subst. now split.
  - destruct (Cut s sep) as [[b a]|]; [|discriminate].
    inversion H; subst. destruct (IH b eq_refl) as [-> Hb].
    split; [reflexivity|]. simpl. now rewrite E, Hb.
Qed.

Lemma SplitN_two (s : string) (sep : ascii) :
  SplitN s sep 2 =
  match Cut s sep with
  | Some (before, after) => [before; after]
  | None => [s]
  end.
Proof.
  unfold SplitN, len. destruct s as [|c s].
  - reflexivity.
  - change (2 =? 0) with false. change (2 <? 0) with false. cbv iota.
    replace (2 >? Z.of_nat (String.length (String c s)) + 1) with false.
    + change (Z.to_nat (2 - 1)) with 1%nat. cbn [genSplit].
      now destruct (Cut (String c s) sep) as [[? ?]|].
    + symmetry. apply gtb_false. simpl String.length. lia.
Qed.

Lemma Count_le_length (s : string) (sep : ascii) :
  (Count s sep <= String.length s)%nat.
Proof.
  induction s as [|c s IH]; simpl; [lia|].
  destruct (Ascii.eqb c sep); lia.
Qed.

Lemma genSplit_pieces (s : string) (sep : ascii) :
  forall n, (Count s sep <= n)%nat -> genSplit s sep n = pieces s sep.
Proof.
  induction s as [|c s IH]; intros n Hn.
  - now destruct n.
  - simpl in Hn. simpl pieces. destruct n as [|n].
    + destruct (Ascii.eqb c sep); [lia|].
      specialize (IH 0%nat Hn). simpl in IH. now rewrite <- IH.
    + cbn [genSplit Cut]. destruct (Ascii.eqb c sep).
      * f_equal. apply IH. lia.
      * specialize (IH (S n) Hn). cbn [genSplit] in IH.
        destruct (Cut s sep) as [[b a]|]; now rewrite <- IH.
Qed.

Lemma Split_pieces (s : string) (sep : ascii) : Split s sep = pieces s sep.
Proof.
  unfold Split, SplitN, len. change (-1 =? 0) with false. change (-1 <? 0) with true.
  cbv iota zeta. pose proof (Count_le_length s sep) as H.
  replace (Z.of_nat (Count s sep) + 1 >? Z.of_nat (String.length s) + 1) with false
    by (symmetry; apply gtb_false; lia).
  apply genSplit_pieces. lia.
Qed.

Lemma pieces_not_nil (s : string) (sep : ascii) : pieces s sep <> [].
Proof.
  induction s as [|c s IH]; simpl; [discriminate|].
  destruct (Ascii.eqb c sep); [discriminate|].
  now destruct (pieces s sep).
Qed.

(** Splitting a text at a separator splits its lines there too. *)
Lemma Split_append (s1 s2 : string) (sep : ascii) :
  Split (s1 +++ String sep s2) sep = Split s1 sep ++ Split s2 sep.
Proof.
  rewrite !Split_pieces. induction s1 as [|c s1 IH]; simpl.
  - now rewrite Ascii.eqb_refl.
  - destruct (Ascii.eqb c sep); [now rewrite IH|].
    rewrite IH. pose proof (pieces_not_nil s1 sep).
    now destruct (pieces s1 sep).
Qed.

Lemma Split_no_sep (s : string) (sep : ascii) : Cut s sep = None -> Split s sep = [s].
Proof.
  rewrite Split_pieces. induction s as [|c s IH]; simpl; [reflexivity|].
  destruct (Ascii.eqb c sep); [discriminate|].
  destruct (Cut s sep) as [[? ?]|]; [discriminate|].
  intros _. now rewrite IH.
Qed.

(* ================================================================= *)
(** ** strconv.Atoi reads decimal numerals that fit an int *)

Lemma maxUint64_value : strconv.maxUint64 = 18446744073709551615.
Proof. reflexivity. Qed.

Lemma cutoff_value : strconv.maxUint64 / 10 + 1 = 1844674407370955162.
Proof. reflexivity. Qed.

Lemma isDigit_range (c : ascii) :
  isDigit c = (48 <=? Z.of_N (N_of_ascii c)) && (Z.of_N (N_of_ascii c) <=? 57).
Proof.
  unfold isDigit, digitValue.
  destruct (Z.leb_spec 48 (Z.of_N (N_of_ascii c)));
    destruct (Z.leb_spec (Z.of_N (N_of_ascii c)) 57);
    destruct (Z.leb_spec 0 (Z.of_N (N_of_ascii c) - 48));
    destruct (Z.leb_spec (Z.of_N (N_of_ascii c) - 48) 9);
    simpl; try reflexivity; lia.
Qed.

Lemma isDigit_bounds (c : ascii) : isDigit c = true -> 0 <= digitValue c <= 9.
Proof.
  unfold isDigit. intros H. apply andb_true_iff in H as [H1 H2].
  apply Z.leb_le in H1, H2. lia.
Qed.

Lemma valueFrom_ge (s : string) :
  forall n, 0 <= n -> allDigits s = true -> n <= valueFrom n s.
Proof.
  induction s as [|c s IH]; intros n Hn Hs; simpl in *; [lia|].
  apply andb_true_iff in Hs as [Hc Hs]. apply isDigit_bounds in Hc.
  specialize (IH (n * 10 + digitValue c) ltac:(lia) Hs). lia.
Qed.

Lemma digits_numeral (s : string) :
  forall n, 0 <= n <= strconv.maxUint64 ->
    match strconv.digits s n with
    | inl v => allDigits s = true /\ v = valueFrom n s /\ 0 <= v <= strconv.maxUint64
    | inr ErrSyntax => allDigits s = false
    | inr ErrRange => allDigits s = true -> strconv.maxUint64 < valueFrom n s
    | inr _ => False
    end.
Proof.
  induction s as [|c s IH]; intros n Hn.
  - simpl. repeat split; lia.
  - cbn [strconv.digits allDigits valueFrom]. rewrite <- isDigit_range.
    fold (digitValue c).
    destruct (isDigit c) eqn:Hc; [|reflexivity]. cbn [andb].
    apply isDigit_bounds in Hc. rewrite cutoff_value.
    destruct (Z.geb_spec n 1844674407370955162) as [Hbig | Hsmall].
    + intros Hs. rewrite maxUint64_value in *.
      pose proof (valueFrom_ge s (n * 10 + digitValue c) ltac:(lia) Hs). lia.
    + destruct (n * 10 + digitValue c >? strconv.maxUint64) eqn:Hover.
      * intros Hs. apply Z.gtb_lt in Hover.
        pose proof (valueFrom_ge s (n * 10 + digitValue c) ltac:(lia) Hs). lia.
      * rewrite Z.gtb_ltb in Hover. apply Z.ltb_ge in Hover.
        apply IH. lia.
Qed.

Lemma ParseUint_numeral (s : string) :
  match strconv.ParseUint s with
  | inl v => unsignedNumeral s = true /\ v = valueFrom 0 s /\ 0 <= v <= strconv.maxUint64
  | inr ErrSyntax => unsignedNumeral s = false
  | inr ErrRange => unsignedNumeral s = true -> strconv.maxUint64 < valueFrom 0 s
  | inr _ => False
  end.
Proof.
  destruct s as [|c s]; [reflexivity|].
  apply (digits_numeral (String c s) 0). rewrite maxUint64_value. lia.
Qed.

(** [Atoi] accepts exactly the decimal numerals whose value fits a
    64-bit [int], and gives that value. *)
Lemma Atoi_numeral (s : string) :
  match strconv.Atoi s with
  | (v, None) => isNumeral s = true /\ v = numeralValue s /\ - 2 ^ 63 <= v <= 2 ^ 63 - 1
  | (_, Some _) =>
      isNumeral s = false \/ numeralValue s < - 2 ^ 63 \/ 2 ^ 63 - 1 < numeralValue s
  end.
Proof.
  destruct s as [|c s]; [now left|].
  unfold strconv.Atoi, isNumeral, numeralValue.
  change (2 ^ 63) with 9223372036854775808.
  destruct (Ascii.eqb c "-") eqn:Hneg.
  - rewrite orb_true_r. pose proof (ParseUint_numeral s) as H.
    cbn [negb andb].
    destruct (strconv.ParseUint s) as [un | []]; try contradiction.
    + destruct H as (Hs & -> & Hv).
      destruct (Z.gtb_spec (valueFrom 0 s) 9223372036854775808); [right; left; lia|].
      repeat split; [exact Hs | lia | lia].
    + now left.
    + cbn. destruct (unsignedNumeral s); [right; left|now left].
      specialize (H eq_refl). rewrite maxUint64_value in H. lia.
  - rewrite orb_false_r. cbn [negb andb]. destruct (Ascii.eqb c "+") eqn:Hplus.
    + pose proof (ParseUint_numeral s) as H.
      destruct (strconv.ParseUint s) as [un | []]; try contradiction.
      * destruct H as (Hs & -> & Hv).
        destruct (Z.geb_spec (valueFrom 0 s) 9223372036854775808); [right; right; lia|].
        repeat split; [exact Hs | lia | lia].
      * now left.
      * cbn. destruct (unsignedNumeral s); [right; right|now left].
        specialize (H eq_refl). rewrite maxUint64_value in H. lia.
    + pose proof (ParseUint_numeral (String c s)) as H.
      change (unsignedNumeral (String c s)) with (allDigits (String c s)) in H.
      destruct (strconv.ParseUint (String c s)) as [un | []]; try contradiction.
      * destruct H as (Hs & -> & Hv).
        destruct (Z.geb_spec (valueFrom 0 (String c s)) 9223372036854775808);
          [right; right; lia|].
        repeat split; [exact Hs | lia | lia].
      * now left.
      * cbn -[allDigits valueFrom]. destruct (allDigits (String c s)); [right; right|now left].
        specialize (H eq_refl). rewrite maxUint64_value in H. lia.
Qed.

Lemma Atoi_fitsInt (s : string) :
  match strconv.Atoi s with
  | (v, None) => fitsInt s = true /\ v = numeralValue s
  | (_, Some _) => fitsInt s = false
  end.
Proof.
  pose proof (Atoi_numeral s) as H. unfold fitsInt.
  destruct (strconv.Atoi s) as [v [e|]].
  - destruct H as [-> | H]; [reflexivity|].
    destruct (isNumeral s); [cbn [andb]|reflexivity].
    destruct H as [H | H].
    + replace (- 2 ^ 63 <=? numeralValue s) with false; [reflexivity|].
      symmetry. apply Z.leb_gt. exact H.
    + replace (numeralValue s <=? 2 ^ 63 - 1) with false; [apply andb_false_r|].
      symmetry. apply Z.leb_gt. exact H.
  - destruct H as (-> & -> & Hlo & Hhi). split; [|reflexivity].
    apply Z.leb_le in Hlo, Hhi. now rewrite Hlo, Hhi.
Qed.

(** The error of [Atoi] names the text and one of two kinds. *)
Lemma Atoi_error (s : string) (i : Z) (e : error) :
  strconv.Atoi s = (i, Some e) -> e = NumError s ErrSyntax \/ e = NumError s ErrRange.
Proof.
  destruct s as [|c s]; [intros H; inversion H; now left|].
  unfold strconv.Atoi.
  destruct (strconv.ParseUint
              (if (Ascii.eqb c "+" || Ascii.eqb c "-")%bool then s else String c s))
    as [un | []];
    repeat match goal with
           | |- context [if ?b then _ else _] => destruct b
           end;
    intros H; inversion H; auto.
Qed.

(* ================================================================= *)
(** ** Worlds and output *)

Lemma printed_nil (w : World) : printed w [] = w.
Proof. destruct w. unfold printed. simpl. now rewrite app_nil_r. Qed.

Lemma logged_nil (w : World) : logged w [] = w.
Proof. destruct w. unfold logged. simpl. now rewrite app_nil_r. Qed.

Lemma printed_printed (w : World) (a b : list Fmt) :
  printed (printed w a) b = printed w (a ++ b).
Proof. unfold printed. simpl. now rewrite app_assoc. Qed.

Lemma logged_logged (w : World) (a b : list Fmt) :
  logged (logged w a) b = logged w (a ++ b).
Proof. unfold logged. simpl. now rewrite app_assoc. Qed.

Lemma Printf_run (f : string) (args : list arg) (w : World) :
  Printf f args w = (tt, printed w [mkFmt f args]).
Proof. reflexivity. Qed.

Lemma printError_run (f : string) (args : list arg) (w : World) :
  printError f args w = (Errorf f args, logged w [errorLine (Errorf f args)]).
Proof. reflexivity. Qed.

Lemma forRange_devices (devices : list Device) :
  forall i w,
    forRange (fun i device =>
                Printf (TAB +++ "%d:" +++ TAB +++ "%s %s" +++ LF)
                       [AInt i; AString (Serial device); AString (State device)])
             i devices w
    = (tt, printed w (deviceListing i devices)).
Proof.
  induction devices as [|device rest IH]; intros i w.
  - cbn [forRange deviceListing]. unfold ret. now rewrite printed_nil.
  - cbn [forRange deviceListing]. unfold bind. rewrite Printf_run, IH, printed_printed.
    reflexivity.
Qed.

Lemma forRange_packages (pkgs : list Package) :
  forall i w,
    forRange (fun i pkg =>
                Printf (TAB +++ "%d:" +++ TAB +++ "%s %s" +++ LF)
                       [AInt i; AString (Name pkg); AString (Path pkg)])
             i pkgs w
    = (tt, printed w (packageListing i pkgs)).
Proof.
  induction pkgs as [|pkg rest IH]; intros i w.
  - cbn [forRange packageListing]. unfold ret. now rewrite printed_nil.
  - cbn [forRange packageListing]. unfold bind. rewrite Printf_run, IH, printed_printed.
    reflexivity.
Qed.

(* ================================================================= *)
(** ** Indexing and searching *)

Lemma at_index_In {A : Type} (xs : list A) (index : Z) (x : A) :
  at_index xs index = Ok x -> In x xs.
Proof.
  unfold at_index. destruct ((index <? 0) || (index >=? Z.of_nat (length xs))); [discriminate|].
  destruct (nth_error xs (Z.to_nat index)) eqn:E; [|discriminate].
  intros H. inversion H; subst. eapply nth_error_In. exact E.
Qed.

Lemma at_index_in_range {A : Type} (xs : list A) (index : Z) :
  0 <= index <= Z.of_nat (length xs) - 1 -> exists x, at_index xs index = Ok x.
Proof.
  intros H. unfold at_index.
  replace ((index <? 0) || (index >=? Z.of_nat (length xs))) with false.
  - destruct (nth_error xs (Z.to_nat index)) eqn:E; [eauto|].
    apply nth_error_None in E. lia.
  - symmetry. apply orb_false_iff. split; [apply Z.ltb_ge; lia|].
    rewrite Z.geb_leb. apply Z.leb_gt. lia.
Qed.

Lemma at_index_not_Err {A : Type} (xs : list A) (index : Z) (e : error) :
  at_index xs index <> Err e.
Proof.
  unfold at_index. destruct ((index <? 0) || (index >=? Z.of_nat (length xs))); [discriminate|].
  destruct (nth_error xs (Z.to_nat index)); discriminate.
Qed.

Lemma find_first {A : Type} (f : A -> bool) (pre : list A) (x : A) (post : list A) :
  (forall y, In y pre -> f y = false) -> f x = true ->
  find f (pre ++ x :: post) = Some x.
Proof.
  induction pre as [|y pre IH]; simpl; intros Hpre Hx.
  - now rewrite Hx.
  - rewrite (Hpre y (or_introl eq_refl)). apply IH; auto.
Qed.

Lemma find_absent {A : Type} (f : A -> bool) (xs : list A) :
  (forall y, In y xs -> f y = false) -> find f xs = None.
Proof.
  induction xs as [|y xs IH]; simpl; intros H; [reflexivity|].
  rewrite (H y (or_introl eq_refl)). apply IH. auto.
Qed.

(* ================================================================= *)
(** ** readInputNumber *)

Lemma readInputNumber_result (prompt : string) (min max : Z) (w : World) :
  let w1 := snd (ReadString "010" (printed w [promptLine prompt min max])) in
  (exists e, readInputNumber prompt min max w = (Err e, logged w1 [errorLine e])) \/
  (exists index, min <= index <= max /\ readInputNumber prompt min max w = (Ok index, w1)).
Proof.
  unfold readInputNumber, bind. rewrite Printf_run. fold (promptLine prompt min max).
  destruct (ReadString "010" (printed w [promptLine prompt min max])) as [[input err] w1].
  cbn [snd]. destruct err as [err|].
  - cbv beta iota. cbn [orb]. unfold ret. rewrite printError_run. left. eauto.
  - cbv beta iota. cbn [orb]. destruct (len (TrimSpace input) =? 0).
    + unfold ret. rewrite printError_run. left. eauto.
    + destruct (strconv.Atoi (TrimSpace input)) as [index [err|]].
      * unfold ret. rewrite printError_run. left. eauto.
      * destruct ((index <? min) || (index >? max)) eqn:E.
        -- unfold ret. rewrite printError_run. left. eauto.
        -- right. exists index. split; [|reflexivity].
           apply orb_false_iff in E as [E1 E2].
           apply Z.ltb_ge in E1. rewrite Z.gtb_ltb in E2. apply Z.ltb_ge in E2. lia.
Qed.

(** The checks of [readInputNumber] on the line read, one after the other. *)
Lemma readInputNumber_checks
    (prompt : string) (min max : Z) (w : World)
    (input : string) (err : option error) (w1 : World) :
  ReadString "010" (printed w [promptLine prompt min max]) = ((input, err), w1) ->
  let text := TrimSpace input in
  let fails e := readInputNumber prompt min max w = (Err e, logged w1 [errorLine e]) in
  (err <> None \/ text = EmptyString -> fails cancelled) /\
  (err = None -> text <> EmptyString ->
   forall i e, strconv.Atoi text = (i, Some e) -> fails (invalidInput e)) /\
  (err = None -> text <> EmptyString ->
   forall index, strconv.Atoi text = (index, None) ->
                 index < min \/ max < index -> fails (outOfRange index)) /\
  (err = None -> text <> EmptyString ->
   forall index, strconv.Atoi text = (index, None) ->
                 min <= index <= max ->
                 readInputNumber prompt min max w = (Ok index, w1)).
Proof.
  intros Hread text fails. unfold fails, readInputNumber, bind.
  rewrite Printf_run. fold (promptLine prompt min max). rewrite Hread.
  cbv beta iota. fold text. split; [|split; [|split]].
  - intros [Herr | Htext].
    + destruct err; [|congruence]. cbn [orb]. unfold ret. now rewrite printError_run.
    + destruct err; cbn [orb]; unfold ret.
      * now rewrite printError_run.
      * rewrite Htext. cbn. reflexivity.
  - intros -> Htext i e HAtoi. cbn [orb].
    destruct (len text =? 0) eqn:E; [apply len_zero in E; contradiction|].
    rewrite HAtoi. unfold ret. now rewrite printError_run.
  - intros -> Htext index HAtoi Hout. cbn [orb].
    destruct (len text =? 0) eqn:E; [apply len_zero in E; contradiction|].
    rewrite HAtoi.
    replace ((index <? min) || (index >? max)) with true.
    + unfold ret. now rewrite printError_run.
    + symmetry. apply orb_true_iff. rewrite Z.gtb_ltb. destruct Hout.
      * left. apply Z.ltb_lt. lia.
      * right. apply Z.ltb_lt. lia.
  - intros -> Htext index HAtoi Hin. cbn [orb].
    destruct (len text =? 0) eqn:E; [apply len_zero in E; contradiction|].
    rewrite HAtoi.
    replace ((index <? min) || (index >? max)) with false; [reflexivity|].
    symmetry. apply orb_false_iff. rewrite Z.gtb_ltb. split; apply Z.ltb_ge; lia.
Qed.

(** C3: the line read for a numeric choice is checked in this order: a
    failed read or an empty line (after trimming) is "Input cancelled";
    else a text that is no decimal numeral of an [int] is "Invalid
    input"; else a number outside [min, max] is "Input out of range";
    else the number is the result, and nothing is reported. *)
Theorem readInputNumber_validation
    (prompt : string) (min max : Z) (w : World)
    (input : string) (err : option error) (w1 : World) :
  ReadString "010" (printed w [promptLine prompt min max]) = ((input, err), w1) ->
  let text := TrimSpace input in
  let value := numeralValue text in
  let fails e := readInputNumber prompt min max w = (Err e, logged w1 [errorLine e]) in
  (err <> None \/ text = EmptyString -> fails cancelled) /\
  (err = None -> text <> EmptyString -> fitsInt text = false ->
   exists kind, (kind = ErrSyntax \/ kind = ErrRange) /\
                fails (invalidInput (NumError text kind))) /\
  (err = None -> text <> EmptyString -> fitsInt text = true ->
   value < min \/ max < value -> fails (outOfRange value)) /\
  (err = None -> text <> EmptyString -> fitsInt text = true ->
   min <= value <= max -> readInputNumber prompt min max w = (Ok value, w1)).
Proof.
  intros Hread text value fails.
  destruct (readInputNumber_checks prompt min max w input err w1 Hread)
    as (Hcancel & Hinvalid & Hrange & Hok).
  fold text in Hcancel, Hinvalid, Hrange, Hok.
  pose proof (Atoi_fitsInt text) as Hfits. pose proof (Atoi_error text) as Hkind.
  destruct (strconv.Atoi text) as [index [e|]].
  - split; [exact Hcancel|]. split; [|split].
    + intros Herr Htext _. destruct (Hkind index e eq_refl) as [-> | ->].
      * exists ErrSyntax. split; [now left|]. exact (Hinvalid Herr Htext index _ eq_refl).
      * exists ErrRange. split; [now right|]. exact (Hinvalid Herr Htext index _ eq_refl).
    + intros _ _ Hyes. congruence.
    + intros _ _ Hyes. congruence.
  - destruct Hfits as [Hyes ->]. fold value.
    split; [exact Hcancel|]. split; [|split].
    + intros _ _ Hno. congruence.
    + intros Herr Htext _ Hout. exact (Hrange Herr Htext value eq_refl Hout).
    + intros Herr Htext _ Hin. exact (Hok Herr Htext value eq_refl Hin).
Qed.

(** The four sample inputs of a choice among five candidates. *)
Lemma readInputNumber_validation_witness :
  fst (readInputNumber "Which device?" 0 4 (Sample.world ["2" +++ LF])) = Ok 2 /\
  fst (readInputNumber "Which device?" 0 4 (Sample.world ["7" +++ LF])) = Err (outOfRange 7) /\
  (exists kind,
      fst (readInputNumber "Which device?" 0 4 (Sample.world ["abc" +++ LF]))
      = Err (invalidInput (NumError "abc" kind))) /\
  fst (readInputNumber "Which device?" 0 4 (Sample.world [LF])) = Err cancelled.
Proof.
  split; [|split; [|split]].
  - destruct (readInputNumber_validation "Which device?" 0 4 (Sample.world ["2" +++ LF])
                _ _ _ eq_refl) as (_ & _ & _ & H).
    rewrite (H eq_refl ltac:(discriminate) eq_refl ltac:(vm_compute; split; discriminate)).
    reflexivity.
  - destruct (readInputNumber_validation "Which device?" 0 4 (Sample.world ["7" +++ LF])
                _ _ _ eq_refl) as (_ & _ & H & _).
    rewrite (H eq_refl ltac:(discriminate) eq_refl ltac:(right; reflexivity)). reflexivity.
  - destruct (readInputNumber_validation "Which device?" 0 4 (Sample.world ["abc" +++ LF])
                _ _ _ eq_refl) as (_ & H & _ & _).
    destruct (H eq_refl ltac:(discriminate) eq_refl) as [kind [_ Hfails]].
    exists kind. rewrite Hfails. reflexivity.
  - destruct (readInputNumber_validation "Which device?" 0 4 (Sample.world [LF])
                _ _ _ eq_refl) as (H & _ & _ & _).
    rewrite (H (or_intror eq_refl)). reflexivity.
Defined.

(* ================================================================= *)
(** ** getDevice, path by path *)

Lemma getDevice_located (deviceSerial : string) (devices : list Device) (device : Device) (w : World) :
  deviceSerial <> EmptyString ->
  find (fun device => String.eqb (Serial device) deviceSerial) devices = Some device ->
  getDevice deviceSerial devices w = (Ok device, w).
Proof.
  intros Hs Hfind. apply len_pos in Hs. unfold getDevice, bind.
  now rewrite Hs, Hfind.
Qed.

Lemma getDevice_warned (deviceSerial : string) (devices : list Device) (w : World) :
  deviceSerial <> EmptyString ->
  find (fun device => String.eqb (Serial device) deviceSerial) devices = None ->
  getDevice deviceSerial devices w = getDevice EmptyString devices (printed w [warning]).
Proof.
  intros Hs Hfind. apply len_pos in Hs. unfold getDevice, bind at 1.
  rewrite Hs, Hfind. unfold bind at 1. rewrite Printf_run. reflexivity.
Qed.

Lemma getDevice_single (device : Device) (w : World) :
  getDevice EmptyString [device] w
  = (Ok device, printed w [mkFmt ("Device: %s" +++ LF) [AString (Serial device)]]).
Proof. reflexivity. Qed.

Lemma getDevice_choice (devices : list Device) (w : World) :
  List.length devices <> 1%nat ->
  getDevice EmptyString devices w
  = let (r, w') := readInputNumber "Which device?" 0 (Z.of_nat (List.length devices) - 1)
                     (printed w (mkFmt ("Devices:" +++ LF) [] :: deviceListing 0 devices)) in
    (match r with
     | Ok index => at_index devices index
     | Err err => Err err
     | Panic => Panic
     end, w').
Proof.
  intros Hlen. unfold getDevice, bind. cbn [len String.length Z.of_nat Z.gtb Z.compare ret].
  replace (Z.of_nat (List.length devices) =? 1) with false
    by (symmetry; apply Z.eqb_neq; lia).
  rewrite Printf_run, forRange_devices, printed_printed. cbn [app].
  destruct (readInputNumber _ _ _ _) as [[index|e|] w']; reflexivity.
Qed.

Lemma getPackage_located (packageName : string) (pkgs : list Package) (pkg : Package) (w : World) :
  packageName <> EmptyString ->
  find (fun pkg => String.eqb (Name pkg) packageName) pkgs = Some pkg ->
  getPackage packageName pkgs w = (Ok pkg, w).
Proof.
  intros Hs Hfind. apply len_pos in Hs. unfold getPackage.
  now rewrite Hs, Hfind.
Qed.

Lemma getPackage_missing (packageName : string) (pkgs : list Package) (w : World) :
  packageName <> EmptyString ->
  find (fun pkg => String.eqb (Name pkg) packageName) pkgs = None ->
  getPackage packageName pkgs w
  = let e := Errorf "Could not locate package: %s" [AString packageName] in
    (Err e, logged w [errorLine e]).
Proof.
  intros Hs Hfind. apply len_pos in Hs. unfold getPackage.
  rewrite Hs, Hfind. unfold bind. now rewrite printError_run.
Qed.

Lemma getPackage_choice (pkgs : list Package) (w : World) :
  getPackage EmptyString pkgs w
  = let (r, w') := readInputNumber "Which package?" 0 (Z.of_nat (List.length pkgs) - 1)
                     (printed w (mkFmt ("Packages:" +++ LF) [] :: packageListing 0 pkgs)) in
    (match r with
     | Ok index => at_index pkgs index
     | Err err => Err err
     | Panic => Panic
     end, w').
Proof.
  unfold getPackage, bind. cbn [len String.length Z.of_nat Z.gtb Z.compare ret].
  rewrite Printf_run, forRange_packages, printed_printed. cbn [app].
  destruct (readInputNumber _ _ _ _) as [[index|e|] w']; reflexivity.
Qed.

(** A choice made at the prompt is one of the candidates. *)
Lemma chosen_In {A : Type} (xs : list A) (prompt : string) (w : World) :
  let (r, w') := readInputNumber prompt 0 (Z.of_nat (List.length xs) - 1) w in
  match r with
  | Ok index => exists x, at_index xs index = Ok x /\ In x xs
  | Err _ => True
  | Panic => False
  end.
Proof.
  destruct (readInputNumber_result prompt 0 (Z.of_nat (List.length xs) - 1) w)
    as [[e ->] | [index [Hrange ->]]]; [exact I|].
  destruct (at_index_in_range xs index Hrange) as [x Hx].
  exists x. split; [exact Hx|]. eapply at_index_In; eauto.
Qed.

Lemma getDevice_In (deviceSerial : string) (devices : list Device) (w : World)
    (device : Device) (w' : World) :
  getDevice deviceSerial devices w = (Ok device, w') -> In device devices.
Proof.
  assert (Hchoose : forall w0, getDevice EmptyString devices w0 = (Ok device, w') ->
                               In device devices).
  { intros w0. destruct (Nat.eq_dec (List.length devices) 1) as [H1 | H1].
    - destruct devices as [|d [|? ?]]; try discriminate.
      rewrite getDevice_single. intros H. inversion H. now left.
    - rewrite (getDevice_choice devices w0 H1).
      pose proof (chosen_In devices "Which device?"
                    (printed w0 (mkFmt ("Devices:" +++ LF) [] :: deviceListing 0 devices))) as Hc.
      destruct (readInputNumber _ _ _ _) as [[index|e|] w2]; try discriminate.
      destruct Hc as [x [Hx Hin]]. rewrite Hx. intros H. inversion H; subst. exact Hin. }
  destruct deviceSerial as [|c s] eqn:Es; [apply Hchoose|]. rewrite <- Es.
  assert (Hs : deviceSerial <> EmptyString) by (subst; discriminate).
  destruct (find (fun device => String.eqb (Serial device) deviceSerial) devices) as [d|] eqn:Hfind.
  - rewrite (getDevice_located _ _ _ _ Hs Hfind). intros H. inversion H; subst.
    now apply find_some in Hfind.
  - rewrite (getDevice_warned _ _ _ Hs Hfind). apply Hchoose.
Qed.

Lemma getPackage_In (packageName : string) (pkgs : list Package) (w : World)
    (pkg : Package) (w' : World) :
  getPackage packageName pkgs w = (Ok pkg, w') -> In pkg pkgs.
Proof.
  destruct packageName as [|c s] eqn:Es.
  - rewrite getPackage_choice.
    pose proof (chosen_In pkgs "Which package?"
                  (printed w (mkFmt ("Packages:" +++ LF) [] :: packageListing 0 pkgs))) as Hc.
    destruct (readInputNumber _ _ _ _) as [[index|e|] w2]; try discriminate.
    destruct Hc as [x [Hx Hin]]. rewrite Hx. intros H. inversion H; subst. exact Hin.
  - rewrite <- Es. assert (Hs : packageName <> EmptyString) by (subst; discriminate).
    destruct (find (fun pkg => String.eqb (Name pkg) packageName) pkgs) as [p|] eqn:Hfind.
    + rewrite (getPackage_located _ _ _ _ Hs Hfind). intros H. inversion H; subst.
      now apply find_some in Hfind.
    + rewrite (getPackage_missing _ _ _ Hs Hfind). discriminate.
Qed.

Lemma unprompted_refl (w : World) : unprompted w w.
Proof. split; [reflexivity|]. exists []. now rewrite app_nil_r. Qed.

Lemma unprompted_printed (w : World) (events : list Fmt) :
  forallb (fun f => negb (isPrompt f)) events = true -> unprompted w (printed w events).
Proof. intros H. split; [reflexivity|]. now exists events. Qed.

Lemma unprompted_logged (w : World) (events : list Fmt) : unprompted w (logged w events).
Proof. split; [reflexivity|]. exists []. simpl. now rewrite app_nil_r. Qed.

Lemma serial_differs (deviceSerial : string) (devices : list Device) :
  (forall d, In d devices -> Serial d <> deviceSerial) ->
  find (fun device => String.eqb (Serial device) deviceSerial) devices = None.
Proof. intros H. apply find_absent. intros d Hd. apply String.eqb_neq. auto. Qed.

Lemma name_differs (packageName : string) (pkgs : list Package) :
  (forall p, In p pkgs -> Name p <> packageName) ->
  find (fun pkg => String.eqb (Name pkg) packageName) pkgs = None.
Proof. intros H. apply find_absent. intros p Hp. apply String.eqb_neq. auto. Qed.

(** C1 (amended): one device is always selected without a prompt,
    whatever the serial asked for; one package is selected without a
    prompt when the name asked for is its name, and a different name
    asked for fails with "Could not locate package", without a prompt. *)
Theorem singleton_selection (device : Device) (pkg : Package) (key : string) (w : World) :
  (exists w', getDevice key [device] w = (Ok device, w') /\ unprompted w w') /\
  (key <> EmptyString -> Name pkg = key -> getPackage key [pkg] w = (Ok pkg, w)) /\
  (key <> EmptyString -> Name pkg <> key ->
   getPackage key [pkg] w = (Err (notLocated key), logged w [errorLine (notLocated key)])).
Proof.
  split; [|split].
  - destruct key as [|c s] eqn:Ek.
    + rewrite getDevice_single. eexists. split; [reflexivity|].
      now apply unprompted_printed.
    + rewrite <- Ek. assert (Hk : key <> EmptyString) by (subst; discriminate).
      destruct (String.eqb (Serial device) key) eqn:E.
      * exists w. split; [|apply unprompted_refl].
        apply getDevice_located; [exact Hk|]. simpl. now rewrite E.
      * rewrite getDevice_warned; [|exact Hk|simpl; now rewrite E].
        rewrite getDevice_single, printed_printed. eexists. split; [reflexivity|].
        now apply unprompted_printed.
  - intros Hk Hname. apply getPackage_located; [exact Hk|].
    simpl. now rewrite Hname, String.eqb_refl.
  - intros Hk Hname. rewrite getPackage_missing; [reflexivity|exact Hk|].
    simpl. apply String.eqb_neq in Hname. now rewrite Hname.
Qed.

Lemma singleton_selection_witness :
  (exists w', getDevice "emulator-5554" [Sample.nexus] (Sample.world []) = (Ok Sample.nexus, w')
              /\ unprompted (Sample.world []) w') /\
  getPackage "com.foo" [Sample.foo] (Sample.world []) = (Ok Sample.foo, Sample.world []) /\
  fst (getPackage "com.bar" [Sample.foo] (Sample.world [])) = Err (notLocated "com.bar").
Proof.
  split; [|split].
  - exact (proj1 (singleton_selection Sample.nexus Sample.foo "emulator-5554" (Sample.world []))).
  - apply (proj1 (proj2 (singleton_selection Sample.nexus Sample.foo "com.foo" (Sample.world []))));
      [discriminate | reflexivity].
  - rewrite (proj2 (proj2 (singleton_selection Sample.nexus Sample.foo "com.bar" (Sample.world []))));
      [reflexivity | discriminate | discriminate].
Defined.

(** C1 as stated fails: the only package is not selected when another
    name was asked for; the selection is an error. *)
Lemma singleton_package_other_name :
  fst (getPackage "com.bar" [Sample.foo] (Sample.world ["0" +++ LF]))
  = Err (Errorf "Could not locate package: %s" [AString "com.bar"]) /\
  fst (getPackage "com.bar" [Sample.foo] (Sample.world ["0" +++ LF])) <> Ok Sample.foo.
Proof. split; [reflexivity | discriminate]. Qed.

(** With no name asked for, the only package is still offered at the
    prompt, and the answer is read. *)
Lemma singleton_package_no_name :
  getPackage EmptyString [Sample.foo] (Sample.world ["0" +++ LF])
  = (Ok Sample.foo,
     mkWorld [] [packagesHeader;
                 mkFmt (TAB +++ "%d:" +++ TAB +++ "%s %s" +++ LF)
                       [AInt 0; AString "com.foo"; AString "/data/app/com.foo.apk"];
                 promptLine "Which package?" 0 0] [] []) /\
  fst (getPackage EmptyString [Sample.foo] (Sample.world []))
  = Err (Errorf "Input cancelled" []).
Proof. split; reflexivity. Qed.

(** C4: a serial asked for that no device has gives a warning and then
    the selection without a serial: the only device, or the prompt; a
    serial that a device has selects the first such device, with no
    output and no prompt. *)
Theorem getDevice_serial (deviceSerial : string) (devices : list Device) (w : World) :
  deviceSerial <> EmptyString ->
  ((forall d, In d devices -> Serial d <> deviceSerial) ->
   getDevice deviceSerial devices w = getDevice EmptyString devices (printed w [warning]) /\
   (forall device, devices = [device] ->
      getDevice deviceSerial devices w = (Ok device, printed w [warning; announce device])) /\
   (List.length devices <> 1%nat ->
      getDevice deviceSerial devices w
      = let (r, w') := readInputNumber "Which device?" 0 (Z.of_nat (List.length devices) - 1)
                         (printed w (warning :: devicesHeader :: deviceListing 0 devices)) in
        (match r with
         | Ok index => at_index devices index
         | Err err => Err err
         | Panic => Panic
         end, w'))) /\
  (forall pre device post,
      devices = pre ++ device :: post ->
      Serial device = deviceSerial ->
      (forall d, In d pre -> Serial d <> deviceSerial) ->
      getDevice deviceSerial devices w = (Ok device, w)).
Proof.
  intros Hs. split.
  - intros Hnone. pose proof (serial_differs _ _ Hnone) as Hfind.
    rewrite (getDevice_warned _ _ w Hs Hfind). split; [reflexivity|split].
    + intros device ->. rewrite getDevice_single. now rewrite printed_printed.
    + intros Hlen. rewrite (getDevice_choice _ _ Hlen). now rewrite printed_printed.
  - intros pre device post -> Hserial Hpre.
    apply getDevice_located; [exact Hs|].
    apply find_first.
    + intros d Hd. apply String.eqb_neq. auto.
    + now apply String.eqb_eq.
Qed.

Lemma getDevice_serial_witness :
  getDevice "ZX1G22" [Sample.nexus] (Sample.world [])
  = (Ok Sample.nexus, printed (Sample.world []) [warning; announce Sample.nexus]) /\
  getDevice "emulator-5554" [Sample.nexus; Sample.emulator] (Sample.world ["0" +++ LF])
  = (Ok Sample.emulator, Sample.world ["0" +++ LF]).
Proof.
  split.
  - refine (proj1 (proj2 (proj1 (getDevice_serial "ZX1G22" [Sample.nexus] (Sample.world []) _) _))
              Sample.nexus eq_refl).
    + discriminate.
    + intros d [<- | []]. discriminate.
  - refine (proj2 (getDevice_serial "emulator-5554" [Sample.nexus; Sample.emulator]
                     (Sample.world ["0" +++ LF]) _)
              [Sample.nexus] Sample.emulator [] eq_refl eq_refl _).
    + discriminate.
    + intros d [<- | []]. discriminate.
Defined.

(** C5: a name asked for that no package has is the error "Could not
    locate package", with no prompt; a name that a package has selects
    the first such package, with no output and no prompt. *)
Theorem getPackage_name (packageName : string) (pkgs : list Package) (w : World) :
  packageName <> EmptyString ->
  ((forall p, In p pkgs -> Name p <> packageName) ->
   getPackage packageName pkgs w
   = (Err (notLocated packageName), logged w [errorLine (notLocated packageName)]) /\
   unprompted w (snd (getPackage packageName pkgs w))) /\
  (forall pre pkg post,
      pkgs = pre ++ pkg :: post ->
      Name pkg = packageName ->
      (forall p, In p pre -> Name p <> packageName) ->
      getPackage packageName pkgs w = (Ok pkg, w)).
Proof.
  intros Hs. split.
  - intros Hnone. pose proof (name_differs _ _ Hnone) as Hfind.
    rewrite (getPackage_missing _ _ w Hs Hfind). split; [reflexivity|].
    apply unprompted_logged.
  - intros pre pkg post -> Hname Hpre.
    apply getPackage_located; [exact Hs|].
    apply find_first.
    + intros p Hp. apply String.eqb_neq. auto.
    + now apply String.eqb_eq.
Qed.

Lemma getPackage_name_witness :
  getPackage "com.baz" [Sample.foo; Sample.bar] (Sample.world ["0" +++ LF])
  = (Err (notLocated "com.baz"),
     logged (Sample.world ["0" +++ LF]) [errorLine (notLocated "com.baz")]) /\
  getPackage "com.bar" [Sample.foo; Sample.bar] (Sample.world ["0" +++ LF])
  = (Ok Sample.bar, Sample.world ["0" +++ LF]).
Proof.
  split.
  - refine (proj1 (proj1 (getPackage_name "com.baz" [Sample.foo; Sample.bar]
                            (Sample.world ["0" +++ LF]) _) _)).
    + discriminate.
    + intros p [<- | [<- | []]]; discriminate.
  - refine (proj2 (getPackage_name "com.bar" [Sample.foo; Sample.bar]
                     (Sample.world ["0" +++ LF]) _)
              [Sample.foo] Sample.bar [] eq_refl eq_refl _).
    + discriminate.
    + intros p [<- | []]. discriminate.
Defined.

(** C9: a device or a package selected without error is one of the
    candidates, and a number accepted at the prompt lies within the
    bounds asked for, [0] and [len(candidates) - 1] in both selections. *)
Theorem selection_among_candidates
    (key prompt : string) (devices : list Device) (pkgs : list Package)
    (min max : Z) (w : World) :
  (forall device w', getDevice key devices w = (Ok device, w') -> In device devices) /\
  (forall pkg w', getPackage key pkgs w = (Ok pkg, w') -> In pkg pkgs) /\
  (forall index w', readInputNumber prompt min max w = (Ok index, w') -> min <= index <= max).
Proof.
  split; [|split].
  - intros device w'. apply getDevice_In.
  - intros pkg w'. apply getPackage_In.
  - intros index w' H.
    destruct (readInputNumber_result prompt min max w) as [[e He] | [i [Hi Hr]]];
      rewrite H in *; [discriminate|]. now inversion Hr; subst.
Qed.

Lemma selection_among_candidates_witness :
  In Sample.emulator [Sample.nexus; Sample.emulator] /\
  In Sample.bar [Sample.foo; Sample.bar] /\
  0 <= 1 <= 1.
Proof.
  pose proof (selection_among_candidates EmptyString "Which device?"
                [Sample.nexus; Sample.emulator] [Sample.foo; Sample.bar] 0 1
                (Sample.world ["1" +++ LF])) as (Hd & Hp & Hi).
  split; [|split].
  - exact (Hd Sample.emulator _ eq_refl).
  - exact (Hp Sample.bar _ eq_refl).
  - exact (Hi 1 _ eq_refl).
Defined.

(* ================================================================= *)
(** ** What reading and writing leave alone *)

Lemma ReadString_keeps (delim : ascii) (w : World) :
  let w' := snd (ReadString delim w) in
  stdout w' = stdout w /\ stderr w' = stderr w /\ pulled w' = pulled w.
Proof.
  unfold ReadString. destruct (fill delim EmptyString (stdin w)) as [r rest].
  simpl. auto.
Qed.

Lemma readInputNumber_keeps (prompt : string) (min max : Z) (w : World) :
  let w' := snd (readInputNumber prompt min max w) in
  stdout w' = stdout w ++ [promptLine prompt min max] /\ pulled w' = pulled w.
Proof.
  pose proof (ReadString_keeps "010" (printed w [promptLine prompt min max])) as (Ho & _ & Hp).
  destruct (readInputNumber_result prompt min max w) as [[e ->] | [index [_ ->]]];
    simpl in *; auto.
Qed.

Lemma getDevice_pulled (deviceSerial : string) (devices : list Device) (w : World) :
  pulled (snd (getDevice deviceSerial devices w)) = pulled w.
Proof.
  assert (Hchoose : forall w0, pulled (snd (getDevice EmptyString devices w0)) = pulled w0).
  { intros w0. destruct (Nat.eq_dec (List.length devices) 1) as [H1 | H1].
    - destruct devices as [|d [|? ?]]; try discriminate. reflexivity.
    - rewrite (getDevice_choice devices w0 H1).
      pose proof (readInputNumber_keeps "Which device?" 0 (Z.of_nat (List.length devices) - 1)
                    (printed w0 (mkFmt ("Devices:" +++ LF) [] :: deviceListing 0 devices)))
        as [_ Hp].
      destruct (readInputNumber _ _ _ _) as [r w2]. exact Hp. }
  destruct deviceSerial as [|c s] eqn:Es; [apply Hchoose|]. rewrite <- Es.
  assert (Hs : deviceSerial <> EmptyString) by (subst; discriminate).
  destruct (find (fun device => String.eqb (Serial device) deviceSerial) devices) as [d|] eqn:Hfind.
  - now rewrite (getDevice_located _ _ _ _ Hs Hfind).
  - rewrite (getDevice_warned _ _ _ Hs Hfind). now rewrite Hchoose.
Qed.

Lemma getPackage_pulled (packageName : string) (pkgs : list Package) (w : World) :
  pulled (snd (getPackage packageName pkgs w)) = pulled w.
Proof.
  destruct packageName as [|c s] eqn:Es.
  - rewrite getPackage_choice.
    pose proof (readInputNumber_keeps "Which package?" 0 (Z.of_nat (List.length pkgs) - 1)
                  (printed w (mkFmt ("Packages:" +++ LF) [] :: packageListing 0 pkgs)))
      as [_ Hp].
    destruct (readInputNumber _ _ _ _) as [r w2]. exact Hp.
  - rewrite <- Es. assert (Hs : packageName <> EmptyString) by (subst; discriminate).
    destruct (find (fun pkg => String.eqb (Name pkg) packageName) pkgs) as [p|] eqn:Hfind.
    + now rewrite (getPackage_located _ _ _ _ Hs Hfind).
    + now rewrite (getPackage_missing _ _ _ Hs Hfind).
Qed.

(* ================================================================= *)
(** ** No devices *)

(** C10: with no devices at all the selection is an error whatever is
    typed: the prompt asks for a number within [0, -1]. *)
Theorem getDevice_no_devices (deviceSerial : string) (w : World) :
  exists e w',
    getDevice deviceSerial [] w = (Err e, w') /\
    stdout w' = stdout w ++ (if len deviceSerial >? 0 then [warning] else [])
                         ++ [devicesHeader; promptLine "Which device?" 0 (-1)].
Proof.
  assert (Hchoose : forall w0, exists e w',
             getDevice EmptyString [] w0 = (Err e, w') /\
             stdout w' = stdout w0 ++ [devicesHeader; promptLine "Which device?" 0 (-1)]).
  { intros w0. rewrite getDevice_choice by discriminate.
    cbn [List.length Z.of_nat Z.sub Z.add Z.opp Z.pos_sub deviceListing].
    pose proof (readInputNumber_keeps "Which device?" 0 (-1) (printed w0 [devicesHeader]))
      as [Ho _].
    destruct (readInputNumber_result "Which device?" 0 (-1) (printed w0 [devicesHeader]))
      as [[e He] | [index [Hi _]]]; [|lia].
    fold devicesHeader. rewrite He in *. exists e. eexists. split; [reflexivity|].
    cbn [snd] in Ho. rewrite Ho. simpl. now rewrite <- app_assoc. }
  destruct deviceSerial as [|c s] eqn:Es.
  - destruct (Hchoose w) as (e & w' & H & Ho). exists e, w'. split; [exact H|exact Ho].
  - rewrite <- Es. assert (Hs : deviceSerial <> EmptyString) by (subst; discriminate).
    rewrite (getDevice_warned deviceSerial [] w Hs eq_refl).
    destruct (Hchoose (printed w [warning])) as (e & w' & H & Ho).
    exists e, w'. split; [exact H|]. rewrite Ho.
    apply len_pos in Hs. rewrite Hs. simpl. now rewrite <- app_assoc.
Qed.

(* ================================================================= *)
(** ** The list parser *)

Lemma packageLine_run (packages : list Package) (line : string) (w : World) :
  packageLine packages line w
  = (packages ++ match parseLine line with Some pkg => [pkg] | None => [] end,
     logged w (if malformed line then [errorLine (badResponse line)] else [])).
Proof.
  unfold packageLine, parseLine, malformed, badResponse.
  destruct (HasPrefix (TrimSpace line) "package:"); cbn [negb andb].
  - rewrite SplitN_two.
    destruct (Cut (sliceFrom (TrimSpace line) 8) "=") as [[path name]|].
    + unfold ret. now rewrite logged_nil.
    + unfold bind, ret. rewrite printError_run. now rewrite app_nil_r.
  - unfold ret. now rewrite logged_nil, app_nil_r.
Qed.

Lemma packageLines_run (lines : list string) :
  forall packages w,
    packageLines packages lines w
    = (packages ++ records lines, logged w (warnings lines)).
Proof.
  induction lines as [|line lines IH]; intros packages w.
  - simpl. unfold ret. now rewrite app_nil_r, logged_nil.
  - cbn [packageLines]. unfold bind. rewrite packageLine_run, IH, logged_logged.
    unfold records, warnings. cbn [flat_map]. now rewrite <- app_assoc.
Qed.

Lemma records_app (a b : list string) : records (a ++ b) = records a ++ records b.
Proof. unfold records. apply flat_map_app. Qed.

Lemma warnings_app (a b : list string) : warnings (a ++ b) = warnings a ++ warnings b.
Proof. unfold warnings. apply flat_map_app. Qed.

Lemma getPackageList_run (adb : Bridge) (device : Device) (data : string) (w : World) :
  Call adb device pmList = Ok data ->
  getPackageList adb device w
  = let lines := Split data "010" in
    match records lines with
    | [] => (Err noPackages, logged w (warnings lines ++ [errorLine noPackages]))
    | _ :: _ => (Ok (records lines), logged w (warnings lines))
    end.
Proof.
  intros Hcall. unfold getPackageList. fold pmList. rewrite Hcall.
  unfold bind. rewrite packageLines_run. cbn [app].
  destruct (records (Split data "010")) as [|pkg pkgs].
  - cbn [List.length Z.of_nat Z.eqb]. unfold bind, ret.
    now rewrite printError_run, logged_logged.
  - reflexivity.
Qed.

Lemma parseLine_wellformed (line path name : string) :
  TrimSpace line = "package:" +++ path +++ "=" +++ name ->
  Cut path "=" = None ->
  parseLine line = Some (mkPackage name path) /\ malformed line = false.
Proof.
  intros Hline Hpath. unfold parseLine, malformed. rewrite Hline.
  rewrite HasPrefix_append.
  change 8%nat with (String.length "package:"). rewrite sliceFrom_append.
  change ("=" +++ name) with (String "=" name).
  now rewrite (Cut_append path name "=" Hpath).
Qed.

(** C2: a line that, trimmed, reads [package:<path>=<name>] with no [=]
    in the path gives exactly one record, with that path and that name,
    between the records of the lines before it and those after it. *)
Theorem getPackageList_line
    (adb : Bridge) (device : Device) (data : string) (w : World)
    (before : list string) (line : string) (after : list string) (path name : string) :
  Call adb device pmList = Ok data ->
  Split data "010" = before ++ line :: after ->
  TrimSpace line = "package:" +++ path +++ "=" +++ name ->
  Cut path "=" = None ->
  packageLine [] line w = ([mkPackage name path], w) /\
  getPackageList adb device w
  = (Ok (records before ++ mkPackage name path :: records after),
     logged w (warnings before ++ warnings after)).
Proof.
  intros Hcall Hsplit Hline Hpath.
  destruct (parseLine_wellformed line path name Hline Hpath) as [Hparse Hmal].
  split.
  - rewrite packageLine_run, Hparse, Hmal. now rewrite logged_nil.
  - rewrite (getPackageList_run adb device data w Hcall). cbv zeta. rewrite Hsplit.
    rewrite records_app, warnings_app.
    change (line :: after) with ([line] ++ after).
    rewrite records_app, warnings_app.
    assert (Hr : records [line] = [mkPackage name path])
      by (unfold records; cbn [flat_map]; now rewrite Hparse).
    assert (Hw : warnings [line] = [])
      by (unfold warnings; cbn [flat_map]; now rewrite Hmal).
    rewrite Hr, Hw. cbn [app].
    now destruct (records before).
Qed.

Lemma getPackageList_line_witness :
  getPackageList (Sample.bridge "package:/a/b.apk=com.example") Sample.nexus (Sample.world [])
  = (Ok [mkPackage "com.example" "/a/b.apk"], logged (Sample.world []) []).
Proof.
  exact (proj2 (getPackageList_line (Sample.bridge "package:/a/b.apk=com.example") Sample.nexus
                  "package:/a/b.apk=com.example" (Sample.world [])
                  [] "package:/a/b.apk=com.example" [] "/a/b.apk" "com.example"
                  eq_refl eq_refl eq_refl eq_refl)).
Defined.

Lemma records_nil_iff (lines : list string) :
  records lines = [] <-> forall line, In line lines -> parseLine line = None.
Proof.
  induction lines as [|l lines IH]; simpl.
  - split; [intros _ ? [] | reflexivity].
  - unfold records in *. cbn [flat_map]. destruct (parseLine l) as [pkg|] eqn:E.
    + split; [discriminate|]. intros H. specialize (H l (or_introl eq_refl)). congruence.
    + cbn [app]. rewrite IH. split.
      * intros H line [<- | Hin]; auto.
      * intros H line Hin. apply H. now right.
Qed.

(** C6: when the command succeeds, the parser fails exactly when no
    line gives a record, with "No packages found"; as soon as one line
    gives a record the result is the records, whatever the other lines. *)
Theorem getPackageList_no_packages
    (adb : Bridge) (device : Device) (data : string) (w : World) :
  Call adb device pmList = Ok data ->
  let lines := Split data "010" in
  ((forall line, In line lines -> parseLine line = None) ->
   getPackageList adb device w
   = (Err noPackages, logged w (warnings lines ++ [errorLine noPackages]))) /\
  ((exists line, In line lines /\ parseLine line <> None) ->
   getPackageList adb device w = (Ok (records lines), logged w (warnings lines)) /\
   records lines <> []) /\
  (forall e w', getPackageList adb device w = (Err e, w') ->
                e = noPackages /\ forall line, In line lines -> parseLine line = None) /\
  fst (getPackageList adb device w) <> Panic.
Proof.
  intros Hcall lines. rewrite (getPackageList_run adb device data w Hcall).
  cbv zeta. fold lines. pose proof (records_nil_iff lines) as Hnil.
  destruct (records lines) as [|pkg pkgs] eqn:E.
  - split; [reflexivity|]. split; [|split].
    + intros [line [Hin Hsome]]. exfalso. apply Hsome. now apply Hnil.
    + intros e w' H. inversion H; subst. split; [reflexivity|]. now apply Hnil.
    + discriminate.
  - split; [|split; [|split]].
    + intros H. apply Hnil in H. discriminate.
    + intros _. split; [reflexivity | discriminate].
    + discriminate.
    + discriminate.
Qed.

Lemma getPackageList_no_packages_witness :
  getPackageList (Sample.bridge ("Error: no service" +++ LF +++ "package:broken" +++ LF))
                 Sample.nexus (Sample.world [])
  = (Err noPackages,
     logged (Sample.world [])
            [errorLine (badResponse "package:broken"); errorLine noPackages]) /\
  fst (getPackageList (Sample.bridge ("package:broken" +++ LF +++ "package:/a/b.apk=com.example"))
                      Sample.nexus (Sample.world []))
  = Ok [mkPackage "com.example" "/a/b.apk"].
Proof.
  split.
  - refine (proj1 (getPackageList_no_packages
                     (Sample.bridge ("Error: no service" +++ LF +++ "package:broken" +++ LF))
                     Sample.nexus _ (Sample.world []) eq_refl) _).
    intros line [<- | [<- | [<- | []]]]; reflexivity.
  - refine (f_equal fst (proj1 (proj1 (proj2 (getPackageList_no_packages
               (Sample.bridge ("package:broken" +++ LF +++ "package:/a/b.apk=com.example"))
               Sample.nexus _ (Sample.world []) eq_refl)) _))).
    exists "package:/a/b.apk=com.example". split; [right; left; reflexivity | discriminate].
Defined.

(** C7: a line with the prefix and no [=] after it is reported on the
    error stream, adds no record, and the lines after it are processed
    as before; a line without the prefix adds nothing and reports
    nothing. *)
Theorem packageLines_skip
    (packages : list Package) (line : string) (rest : list string) (w : World) :
  (HasPrefix (TrimSpace line) "package:" = true ->
   Cut (sliceFrom (TrimSpace line) 8) "=" = None ->
   packageLine packages line w = (packages, logged w [errorLine (badResponse line)]) /\
   packageLines packages (line :: rest) w
   = packageLines packages rest (logged w [errorLine (badResponse line)])) /\
  (HasPrefix (TrimSpace line) "package:" = false ->
   packageLine packages line w = (packages, w) /\
   packageLines packages (line :: rest) w = packageLines packages rest w).
Proof.
  split.
  - intros Hprefix Hcut.
    assert (H : packageLine packages line w
                = (packages, logged w [errorLine (badResponse line)])).
    { rewrite packageLine_run. unfold parseLine, malformed.
      rewrite Hprefix, Hcut. cbn. now rewrite app_nil_r. }
    split; [exact H|]. cbn [packageLines]. unfold bind. now rewrite H.
  - intros Hprefix.
    assert (H : packageLine packages line w = (packages, w)).
    { rewrite packageLine_run. unfold parseLine, malformed.
      rewrite Hprefix. cbn. now rewrite app_nil_r, logged_nil. }
    split; [exact H|]. cbn [packageLines]. unfold bind. now rewrite H.
Qed.

Lemma packageLines_skip_witness :
  packageLines [] [" package:broken"; "package:/a/b.apk=com.example"] (Sample.world [])
  = packageLines [] ["package:/a/b.apk=com.example"]
      (logged (Sample.world []) [errorLine (badResponse "package:broken")]) /\
  packageLines [] ["Error: no service"; "package:/a/b.apk=com.example"] (Sample.world [])
  = packageLines [] ["package:/a/b.apk=com.example"] (Sample.world []).
Proof.
  split.
  - exact (proj2 (proj1 (packageLines_skip [] " package:broken" ["package:/a/b.apk=com.example"]
                           (Sample.world [])) eq_refl eq_refl)).
  - exact (proj2 (proj2 (packageLines_skip [] "Error: no service" ["package:/a/b.apk=com.example"]
                           (Sample.world [])) eq_refl)).
Defined.

Lemma getPackageList_pulled (adb : Bridge) (device : Device) (w : World) :
  pulled (snd (getPackageList adb device w)) = pulled w.
Proof.
  destruct (Call adb device pmList) as [data|err|] eqn:Hcall.
  - rewrite (getPackageList_run adb device data w Hcall). cbv zeta.
    now destruct (records (Split data "010")).
  - unfold getPackageList. fold pmList. now rewrite Hcall.
  - unfold getPackageList. fold pmList. now rewrite Hcall.
Qed.

(** C8: once a device and a package are resolved, the one pull asked of
    the bridge is from the package's path on the device to the file
    named by the package's name followed by [.apk]; the exit status is 0
    when the pull succeeds and 1 when it fails. *)
Theorem main_pull
    (adb : Bridge) (packageName deviceSerial : string) (w : World)
    (devices : list Device) (device : Device) (w1 : World)
    (pkgs : list Package) (w2 : World) (pkg : Package) (w3 : World) :
  Devices adb = Ok devices ->
  getDevice deviceSerial devices w = (Ok device, w1) ->
  getPackageList adb device w1 = (Ok pkgs, w2) ->
  getPackage packageName pkgs w2 = (Ok pkg, w3) ->
  let apkName := Name pkg +++ ".apk" in
  pulled w3 = pulled w /\
  pulled (snd (main adb packageName deviceSerial w))
  = pulled w ++ [mkPull device (Path pkg) apkName] /\
  main adb packageName deviceSerial w
  = match Pull adb device (Path pkg) apkName with
    | None => (0, printed (pullAsked w3 device pkg) [mkFmt ("Success" +++ LF) []])
    | Some err =>
        (1, logged (printed (pullAsked w3 device pkg) [mkFmt ("Failed" +++ LF) []])
                   [errorLine (pullFailed err)])
    end.
Proof.
  intros Hdevices Hdevice Hlist Hpkg apkName.
  assert (Hkeep : pulled w3 = pulled w).
  { pose proof (getDevice_pulled deviceSerial devices w) as H1.
    pose proof (getPackageList_pulled adb device w1) as H2.
    pose proof (getPackage_pulled packageName pkgs w2) as H3.
    rewrite Hdevice in H1. rewrite Hlist in H2. rewrite Hpkg in H3. simpl in *. congruence. }
  assert (Hmain : main adb packageName deviceSerial w
                  = match Pull adb device (Path pkg) apkName with
                    | None => (0, printed (pullAsked w3 device pkg) [mkFmt ("Success" +++ LF) []])
                    | Some err =>
                        (1, logged (printed (pullAsked w3 device pkg) [mkFmt ("Failed" +++ LF) []])
                                   [errorLine (pullFailed err)])
                    end).
  { unfold main. rewrite Hdevices. unfold bind at 1. rewrite Hdevice.
    unfold bind at 1. rewrite Hlist. unfold bind at 1. rewrite Hpkg.
    unfold bind, DevicePull. rewrite Printf_run. cbn [printed stdin stdout stderr pulled].
    fold apkName. destruct (Pull adb device (Path pkg) apkName) as [err|].
    - rewrite Printf_run, printError_run. reflexivity.
    - rewrite Printf_run. reflexivity. }
  split; [exact Hkeep|]. split; [|exact Hmain].
  rewrite Hmain. destruct (Pull adb device (Path pkg) apkName); simpl; now rewrite Hkeep.
Qed.

(** Two devices, the line [package:/data/app/com.foo.apk=com.foo]; the
    second device is typed, then the package. *)
Lemma main_pull_witness :
  pulled (snd (main (Sample.bridge "package:/data/app/com.foo.apk=com.foo")
                    EmptyString EmptyString (Sample.world ["1" +++ LF; "0" +++ LF])))
  = [mkPull Sample.emulator "/data/app/com.foo.apk" "com.foo.apk"].
Proof.
  exact (proj1 (proj2 (main_pull (Sample.bridge "package:/data/app/com.foo.apk=com.foo")
                         EmptyString EmptyString (Sample.world ["1" +++ LF; "0" +++ LF])
                         [Sample.nexus; Sample.emulator] Sample.emulator _
                         [Sample.foo] _ Sample.foo _
                         eq_refl eq_refl eq_refl eq_refl))).
Defined.

(* ================================================================= *)
(** ** Trimming ASCII white space *)

Lemma append_assoc (a b c : string) : (a +++ b) +++ c = a +++ b +++ c.
Proof. induction a as [|x a IH]; simpl; [reflexivity | now rewrite IH]. Qed.

Lemma append_empty (a : string) : a +++ EmptyString = a.
Proof. induction a as [|x a IH]; simpl; [reflexivity | now rewrite IH]. Qed.

Lemma length_append (a b : string) :
  String.length (a +++ b) = (String.length a + String.length b)%nat.
Proof. induction a as [|x a IH]; simpl; [reflexivity | now rewrite IH]. Qed.

Lemma rev_append (a b : string) : rev (a +++ b) = rev b +++ rev a.
Proof.
  induction a as [|x a IH]; simpl.
  - now rewrite append_empty.
  - now rewrite IH, append_assoc.
Qed.

Lemma rev_rev (a : string) : rev (rev a) = a.
Proof.
  induction a as [|x a IH]; simpl; [reflexivity|].
  now rewrite rev_append, IH.
Qed.

Lemma length_rev (a : string) : String.length (rev a) = String.length a.
Proof.
  induction a as [|x a IH]; simpl; [reflexivity|].
  rewrite length_append, IH. simpl. lia.
Qed.

Lemma asciiSpaces_append (a b : string) :
  asciiSpaces (a +++ b) = asciiSpaces a && asciiSpaces b.
Proof.
  induction a as [|x a IH]; simpl; [reflexivity|].
  now rewrite IH, andb_assoc.
Qed.

Lemma asciiSpaces_rev (a : string) : asciiSpaces (rev a) = asciiSpaces a.
Proof.
  induction a as [|x a IH]; simpl; [reflexivity|].
  rewrite asciiSpaces_append, IH. simpl. rewrite andb_true_r. apply andb_comm.
Qed.

Lemma leadingSpace_ascii (c : ascii) (s : string) :
  asciiSpace (code c) = true -> leadingSpace (String c s) = 1%nat.
Proof.
  intros H. destruct s as [|c1 [|c2 s]]; cbn [leadingSpace]; unfold spaceWidth; now rewrite H.
Qed.

Lemma trailingSpace_ascii (c : ascii) (s : string) :
  asciiSpace (code c) = true -> trailingSpace (String c s) = 1%nat.
Proof. intros H. cbn [trailingSpace]. now rewrite H. Qed.

Lemma spaceWidth_high (b0 b1 b2 : N) :
  spaceWidth b0 b1 b2 <> 0%nat -> asciiSpace b0 = false -> (128 <= b0)%N.
Proof.
  unfold spaceWidth. intros H Hs. rewrite Hs in H.
  destruct (N.eqb_spec b0 194); [lia|]. destruct (N.eqb_spec b0 225); [lia|].
  destruct (N.eqb_spec b0 226); [lia|]. destruct (N.eqb_spec b0 227); [lia|].
  now cbn in H.
Qed.

Lemma spaceWidth_last (b0 b1 b2 : N) :
  (b2 < 128)%N -> spaceWidth b0 b1 b2 <> 3%nat.
Proof.
  intros Hb. unfold spaceWidth.
  destruct (N.eqb_spec b2 128); [lia|]. destruct (N.leb_spec 128 b2); [lia|].
  destruct (N.eqb_spec b2 168); [lia|]. destruct (N.eqb_spec b2 169); [lia|].
  destruct (N.eqb_spec b2 175); [lia|]. destruct (N.eqb_spec b2 159); [lia|].
  cbn [andb orb]. rewrite !andb_false_r.
  destruct (asciiSpace b0); [discriminate|].
  destruct ((b0 =? 194)%N && ((b1 =? 133)%N || (b1 =? 160)%N)); discriminate.
Qed.

Lemma spaceWidth_second (b0 b1 : N) :
  (b1 < 128)%N -> spaceWidth b0 b1 256 <> 2%nat.
Proof.
  intros Hb. unfold spaceWidth.
  destruct (N.eqb_spec b1 133); [lia|]. destruct (N.eqb_spec b1 160); [lia|].
  cbn [orb]. rewrite andb_false_r.
  destruct (asciiSpace b0); [discriminate|].
  repeat match goal with
         | |- context [if ?b then _ else _] => destruct b; try discriminate
         end.
Qed.

Lemma plain_inv (c : ascii) :
  plain c = true -> (code c < 128)%N /\ asciiSpace (code c) = false.
Proof.
  unfold plain. intros H. apply andb_true_iff in H as [H1 H2].
  apply N.ltb_lt in H1. now apply negb_true_iff in H2.
Qed.

Lemma leadingSpace_plain (s : string) : startsPlain s = true -> leadingSpace s = 0%nat.
Proof.
  destruct s as [|c s]; [discriminate|]. cbn [startsPlain]. intros H.
  apply plain_inv in H as [Hlow Hs].
  assert (Hw : forall b1 b2, spaceWidth (code c) b1 b2 = 0%nat).
  { intros b1 b2. destruct (spaceWidth (code c) b1 b2) eqn:E; [reflexivity|].
    assert (Hne : spaceWidth (code c) b1 b2 <> 0%nat) by (rewrite E; discriminate).
    pose proof (spaceWidth_high _ _ _ Hne Hs). lia. }
  destruct s as [|c1 [|c2 s]]; cbn [leadingSpace]; apply Hw.
Qed.

Lemma trailingSpace_plain (r : string) : startsPlain r = true -> trailingSpace r = 0%nat.
Proof.
  destruct r as [|c0 r1]; [discriminate|]. cbn [startsPlain]. intros H.
  apply plain_inv in H as [Hlow Hs]. cbn [trailingSpace]. rewrite Hs.
  destruct r1 as [|c1 r2]; [reflexivity|].
  destruct (Nat.eqb_spec (spaceWidth (code c1) (code c0) 256) 2) as [E|_];
    [now apply spaceWidth_second in E|].
  destruct r2 as [|c2 r3]; [reflexivity|].
  destruct (Nat.eqb_spec (spaceWidth (code c2) (code c1) (code c0)) 3) as [E|_];
    [now apply spaceWidth_last in E|reflexivity].
Qed.

Lemma sliceFrom_zero (s : string) : sliceFrom s 0 = s.
Proof. now destruct s. Qed.

Lemma trimWith_stop (width : string -> nat) (fuel : nat) (s : string) :
  width s = 0%nat -> trimWith width fuel s = s.
Proof. intros H. destruct fuel; simpl; [reflexivity | now rewrite H]. Qed.

Lemma trimWith_spaces (width : string -> nat) :
  (forall c s, asciiSpace (code c) = true -> width (String c s) = 1%nat) ->
  forall spaces fuel s,
    asciiSpaces spaces = true ->
    (String.length spaces <= fuel)%nat ->
    trimWith width fuel (spaces +++ s) = trimWith width (fuel - String.length spaces) s.
Proof.
  intros Hwidth spaces. induction spaces as [|c spaces IH]; intros fuel s Hsp Hfuel.
  - simpl. now rewrite Nat.sub_0_r.
  - simpl in Hsp, Hfuel. apply andb_true_iff in Hsp as [Hc Hsp].
    destruct fuel as [|fuel]; [lia|]. cbn [trimWith append].
    rewrite (Hwidth c _ Hc). cbn [sliceFrom String.length Nat.sub].
    rewrite sliceFrom_zero. apply IH; [exact Hsp | lia].
Qed.

(** Trimming takes ASCII white space off both ends of a text that
    begins and ends with ASCII bytes other than white space. *)
Lemma TrimSpace_around (before core after : string) :
  asciiSpaces before = true -> asciiSpaces after = true ->
  startsPlain core = true -> endsPlain core = true ->
  TrimSpace (before +++ core +++ after) = core.
Proof.
  intros Hb Ha Hstart Hend. unfold TrimSpace.
  assert (Hleft : TrimLeftSpace (before +++ core +++ after) = core +++ after).
  { unfold TrimLeftSpace.
    rewrite (trimWith_spaces leadingSpace leadingSpace_ascii before _ _ Hb)
      by (rewrite length_append; lia).
    apply trimWith_stop, leadingSpace_plain.
    destruct core; [discriminate | exact Hstart]. }
  rewrite Hleft. unfold TrimRightSpace. rewrite rev_append.
  rewrite (trimWith_spaces trailingSpace trailingSpace_ascii (rev after) _ _)
    by (rewrite ?asciiSpaces_rev, ?length_append, ?length_rev; auto; lia).
  rewrite trimWith_stop by (apply trailingSpace_plain; exact Hend).
  apply rev_rev.
Qed.

(* ================================================================= *)
(** ** The list parser, further *)

Lemma startsPlain_append (a b : string) :
  startsPlain a = true -> startsPlain (a +++ b) = true.
Proof. destruct a; [discriminate | exact (fun H => H)]. Qed.

Lemma endsPlain_append (a b : string) : endsPlain b = true -> endsPlain (a +++ b) = true.
Proof. unfold endsPlain. rewrite rev_append. apply startsPlain_append. Qed.

(** X1: white space of ASCII around a line [package:<path>=<name>]
    (blanks, tabs, the carriage return of a CRLF line end) does not
    change the record the line gives. *)
Theorem packageLine_surrounded
    (packages : list Package) (before after path name : string) (w : World) :
  asciiSpaces before = true -> asciiSpaces after = true ->
  Cut path "=" = None -> endsPlain name = true ->
  packageLine packages (before +++ ("package:" +++ path +++ "=" +++ name) +++ after) w
  = (packages ++ [mkPackage name path], w).
Proof.
  intros Hb Ha Hpath Hname.
  assert (Hline : TrimSpace (before +++ ("package:" +++ path +++ "=" +++ name) +++ after)
                  = "package:" +++ path +++ "=" +++ name).
  { apply TrimSpace_around; auto.
    change ("package:" +++ path +++ "=" +++ name)
      with ("package:" +++ (path +++ "=" +++ name)).
    rewrite <- append_assoc, <- append_assoc.
    now apply endsPlain_append. }
  destruct (parseLine_wellformed _ path name Hline Hpath) as [Hparse Hmal].
  rewrite packageLine_run, Hparse, Hmal. now rewrite logged_nil.
Qed.

Lemma packageLine_surrounded_witness :
  packageLine [] ("  package:/data/app/com.foo.apk=com.foo" +++ String "013" EmptyString)
              (Sample.world [])
  = ([Sample.foo], Sample.world []).
Proof.
  exact (packageLine_surrounded [] "  " (String "013" EmptyString)
           "/data/app/com.foo.apk" "com.foo" (Sample.world [])
           eq_refl eq_refl eq_refl eq_refl).
Defined.

Lemma HasPrefix_split (s p : string) :
  HasPrefix s p = true -> s = p +++ sliceFrom s (String.length p).
Proof.
  revert s. induction p as [|c p IH]; intros s H.
  - simpl. now rewrite sliceFrom_zero.
  - destruct s as [|d s]; [discriminate|]. simpl in H.
    apply andb_true_iff in H as [Hc Hp]. apply Ascii.eqb_eq in Hc. subst d.
    simpl. f_equal. now apply IH.
Qed.

Lemma parseLine_inv (line : string) (pkg : Package) :
  parseLine line = Some pkg ->
  TrimSpace line = "package:" +++ Path pkg +++ "=" +++ Name pkg /\ Cut (Path pkg) "=" = None.
Proof.
  unfold parseLine. destruct (HasPrefix (TrimSpace line) "package:") eqn:Hp; [|discriminate].
  destruct (Cut (sliceFrom (TrimSpace line) 8) "=") as [[path name]|] eqn:Hc; [|discriminate].
  intros H. inversion H; subst. cbn [Path Name].
  apply Cut_inv in Hc as [Hrest Hpath]. split; [|exact Hpath].
  rewrite (HasPrefix_split _ _ Hp) at 1. cbn [String.length]. now rewrite Hrest.
Qed.

Lemma records_In (lines : list string) (pkg : Package) :
  In pkg (records lines) -> exists line, In line lines /\ parseLine line = Some pkg.
Proof.
  unfold records. rewrite in_flat_map. intros [line [Hin Hp]].
  exists line. split; [exact Hin|].
  destruct (parseLine line) as [p|]; [|contradiction]. destruct Hp as [-> | []]. reflexivity.
Qed.

Lemma records_length (lines : list string) :
  (List.length (records lines) <= List.length lines)%nat.
Proof.
  induction lines as [|line lines IH]; simpl; [lia|].
  unfold records in *. cbn [flat_map]. rewrite length_app.
  destruct (parseLine line); simpl; lia.
Qed.

(** X2: the packages [getPackageList] returns are never none; there
    are no more of them than lines in the output of the command, and
    each one was read off a line [package:<Path>=<Name>] of it, so that
    its [Path] holds no [=]. *)
Theorem getPackageList_sound
    (adb : Bridge) (device : Device) (w : World) (pkgs : list Package) (w' : World) :
  getPackageList adb device w = (Ok pkgs, w') ->
  pkgs <> [] /\
  exists data,
    Call adb device pmList = Ok data /\
    (List.length pkgs <= List.length (Split data "010"))%nat /\
    forall pkg, In pkg pkgs ->
      Cut (Path pkg) "=" = None /\
      exists line, In line (Split data "010") /\
                   TrimSpace line = "package:" +++ Path pkg +++ "=" +++ Name pkg.
Proof.
  destruct (Call adb device pmList) as [data|err|] eqn:Hcall.
  - rewrite (getPackageList_run adb device data w Hcall). cbv zeta.
    destruct (records (Split data "010")) as [|p ps] eqn:E; [discriminate|].
    intros H. inversion H; subst. split; [discriminate|].
    exists data. split; [reflexivity|]. split.
    + rewrite <- E. apply records_length.
    + intros pkg Hin. rewrite <- E in Hin.
      destruct (records_In _ _ Hin) as [line [Hline Hparse]].
      apply parseLine_inv in Hparse as [Htrim Hpath]. split; [exact Hpath|].
      exists line. now split.
  - unfold getPackageList. fold pmList. rewrite Hcall. discriminate.
  - unfold getPackageList. fold pmList. rewrite Hcall. discriminate.
Qed.

Lemma getPackageList_sound_witness :
  [Sample.foo] <> [] /\
  exists data,
    Call (Sample.bridge "package:/data/app/com.foo.apk=com.foo") Sample.nexus pmList = Ok data /\
    (List.length [Sample.foo] <= List.length (Split data "010"))%nat /\
    forall pkg, In pkg [Sample.foo] ->
      Cut (Path pkg) "=" = None /\
      exists line, In line (Split data "010") /\
                   TrimSpace line = "package:" +++ Path pkg +++ "=" +++ Name pkg.
Proof.
  exact (getPackageList_sound (Sample.bridge "package:/data/app/com.foo.apk=com.foo")
           Sample.nexus (Sample.world []) [Sample.foo] _ eq_refl).
Defined.

(** X3: the output of two commands put one after the other, a line
    feed between them, gives the packages of the first followed by the
    packages of the second, and the warnings likewise. *)
Theorem packageLines_concat (data1 data2 : string) (w : World) :
  packageLines [] (Split (data1 +++ LF +++ data2) "010") w
  = let (packages1, w1) := packageLines [] (Split data1 "010") w in
    let (packages2, w2) := packageLines [] (Split data2 "010") w1 in
    (packages1 ++ packages2, w2).
Proof.
  change (LF +++ data2) with (String "010" data2). rewrite Split_append.
  rewrite !packageLines_run. cbn [app].
  now rewrite records_app, warnings_app, logged_logged.
Qed.

(* ================================================================= *)
(** ** Errors are reported, indexes are in range *)

Lemma reported_logged (e : error) (w : World) (earlier : list Fmt) :
  reported e (logged w (earlier ++ [errorLine e])).
Proof. exists (stderr w ++ earlier). simpl. now rewrite app_assoc. Qed.

Lemma reported_logged_one (e : error) (w : World) : reported e (logged w [errorLine e]).
Proof. exact (reported_logged e w []). Qed.

Lemma readInputNumber_reported (prompt : string) (min max : Z) (w : World)
    (e : error) (w' : World) :
  readInputNumber prompt min max w = (Err e, w') -> reported e w'.
Proof.
  destruct (readInputNumber_result prompt min max w) as [[e0 ->] | [index [_ ->]]];
    [|discriminate].
  intros H. inversion H; subst. apply reported_logged_one.
Qed.

Lemma readInputNumber_no_panic (prompt : string) (min max : Z) (w : World) :
  fst (readInputNumber prompt min max w) <> Panic.
Proof.
  destruct (readInputNumber_result prompt min max w) as [[e0 ->] | [index [_ ->]]];
    discriminate.
Qed.

(** What choosing at the prompt gives: an error that was reported, or
    the candidate at an index in range. *)
Lemma chosen_outcome {A : Type} (xs : list A) (prompt : string) (w : World) :
  let (r, w') := readInputNumber prompt 0 (Z.of_nat (List.length xs) - 1) w in
  match r with
  | Ok index => exists x, at_index xs index = Ok x
  | Err e => reported e w'
  | Panic => False
  end.
Proof.
  pose proof (chosen_In xs prompt w) as Hc.
  pose proof (readInputNumber_reported prompt 0 (Z.of_nat (List.length xs) - 1) w) as Hr.
  destruct (readInputNumber _ _ _ _) as [[index|e|] w'].
  - destruct Hc as [x [Hx _]]. eauto.
  - now apply Hr.
  - exact Hc.
Qed.

Lemma getDevice_outcome (deviceSerial : string) (devices : list Device) (w : World) :
  let (r, w') := getDevice deviceSerial devices w in
  match r with
  | Ok _ => True
  | Err e => reported e w'
  | Panic => False
  end.
Proof.
  assert (Hchoose : forall w0,
             let (r, w') := getDevice EmptyString devices w0 in
             match r with Ok _ => True | Err e => reported e w' | Panic => False end).
  { intros w0. destruct (Nat.eq_dec (List.length devices) 1) as [H1 | H1].
    - destruct devices as [|d [|? ?]]; try discriminate. now rewrite getDevice_single.
    - rewrite (getDevice_choice devices w0 H1).
      pose proof (chosen_outcome devices "Which device?"
                    (printed w0 (mkFmt ("Devices:" +++ LF) [] :: deviceListing 0 devices))) as Hc.
      destruct (readInputNumber _ _ _ _) as [[index|e|] w2]; try exact Hc.
      destruct Hc as [x ->]. exact I. }
  destruct deviceSerial as [|c s] eqn:Es; [apply Hchoose|]. rewrite <- Es.
  assert (Hs : deviceSerial <> EmptyString) by (subst; discriminate).
  destruct (find (fun device => String.eqb (Serial device) deviceSerial) devices) as [d|] eqn:Hfind.
  - now rewrite (getDevice_located _ _ _ _ Hs Hfind).
  - rewrite (getDevice_warned _ _ _ Hs Hfind). apply Hchoose.
Qed.

Lemma getPackage_outcome (packageName : string) (pkgs : list Package) (w : World) :
  let (r, w') := getPackage packageName pkgs w in
  match r with
  | Ok _ => True
  | Err e => reported e w'
  | Panic => False
  end.
Proof.
  destruct packageName as [|c s] eqn:Es.
  - rewrite getPackage_choice.
    pose proof (chosen_outcome pkgs "Which package?"
                  (printed w (mkFmt ("Packages:" +++ LF) [] :: packageListing 0 pkgs))) as Hc.
    destruct (readInputNumber _ _ _ _) as [[index|e|] w2]; try exact Hc.
    destruct Hc as [x ->]. exact I.
  - rewrite <- Es. assert (Hs : packageName <> EmptyString) by (subst; discriminate).
    destruct (find (fun pkg => String.eqb (Name pkg) packageName) pkgs) as [p|] eqn:Hfind.
    + now rewrite (getPackage_located _ _ _ _ Hs Hfind).
    + rewrite (getPackage_missing _ _ _ Hs Hfind). apply reported_logged_one.
Qed.

Lemma getPackageList_outcome (adb : Bridge) (device : Device) (w : World) :
  let (r, w') := getPackageList adb device w in
  match r with
  | Ok _ => True
  | Err e => reported e w'
  | Panic => Call adb device pmList = Panic
  end.
Proof.
  destruct (Call adb device pmList) as [data|err|] eqn:Hcall.
  - rewrite (getPackageList_run adb device data w Hcall). cbv zeta.
    destruct (records (Split data "010")); [apply reported_logged | exact I].
  - unfold getPackageList. fold pmList. rewrite Hcall. unfold bind.
    rewrite Printf_run, printError_run. apply reported_logged_one.
  - unfold getPackageList. fold pmList. now rewrite Hcall.
Qed.

(** X4: an error returned by [readInputNumber], [getDevice],
    [getPackageList] or [getPackage] is the last line written to the
    error stream when the function returns. *)
Theorem errors_reported
    (adb : Bridge) (key prompt : string) (min max : Z)
    (devices : list Device) (device : Device) (pkgs : list Package)
    (w : World) (e : error) (w' : World) :
  (readInputNumber prompt min max w = (Err e, w') -> reported e w') /\
  (getDevice key devices w = (Err e, w') -> reported e w') /\
  (getPackageList adb device w = (Err e, w') -> reported e w') /\
  (getPackage key pkgs w = (Err e, w') -> reported e w').
Proof.
  split; [|split; [|split]].
  - apply readInputNumber_reported.
  - intros H. pose proof (getDevice_outcome key devices w) as Ho. now rewrite H in Ho.
  - intros H. pose proof (getPackageList_outcome adb device w) as Ho. now rewrite H in Ho.
  - intros H. pose proof (getPackage_outcome key pkgs w) as Ho. now rewrite H in Ho.
Qed.

Lemma errors_reported_witness :
  reported (outOfRange 7) (snd (readInputNumber "Which device?" 0 1 (Sample.world ["7" +++ LF]))) /\
  reported (outOfRange 7)
           (snd (getDevice EmptyString [Sample.nexus; Sample.emulator] (Sample.world ["7" +++ LF]))) /\
  reported noPackages
           (snd (getPackageList (Sample.bridge "package:broken") Sample.nexus
                                (Sample.world ["7" +++ LF]))) /\
  reported (notLocated "com.baz")
           (snd (getPackage "com.baz" [Sample.foo] (Sample.world ["7" +++ LF]))).
Proof.
  split; [|split; [|split]].
  - exact (proj1 (errors_reported (Sample.bridge "package:broken") EmptyString
                    "Which device?" 0 1 [Sample.nexus; Sample.emulator] Sample.nexus
                    [Sample.foo] (Sample.world ["7" +++ LF]) (outOfRange 7) _) eq_refl).
  - exact (proj1 (proj2 (errors_reported (Sample.bridge "package:broken") EmptyString
                    "Which device?" 0 1 [Sample.nexus; Sample.emulator] Sample.nexus
                    [Sample.foo] (Sample.world ["7" +++ LF]) (outOfRange 7) _)) eq_refl).
  - exact (proj1 (proj2 (proj2 (errors_reported (Sample.bridge "package:broken") EmptyString
                    "Which device?" 0 1 [Sample.nexus; Sample.emulator] Sample.nexus
                    [Sample.foo] (Sample.world ["7" +++ LF]) noPackages _))) eq_refl).
  - exact (proj2 (proj2 (proj2 (errors_reported (Sample.bridge "package:broken") "com.baz"
                    "Which device?" 0 1 [Sample.nexus; Sample.emulator] Sample.nexus
                    [Sample.foo] (Sample.world ["7" +++ LF]) (notLocated "com.baz") _))) eq_refl).
Defined.

(** X5: neither selection ever indexes its candidates out of range:
    the only device is taken at index 0 of a list of length 1, and an
    index typed at the prompt was checked against the bounds. *)
Theorem selection_in_range
    (key : string) (devices : list Device) (pkgs : list Package) (w : World) :
  fst (getDevice key devices w) <> Panic /\ fst (getPackage key pkgs w) <> Panic.
Proof.
  split.
  - pose proof (getDevice_outcome key devices w) as Ho.
    destruct (getDevice key devices w) as [[d|e|] w']; [discriminate|discriminate|contradiction].
  - pose proof (getPackage_outcome key pkgs w) as Ho.
    destruct (getPackage key pkgs w) as [[p|e|] w']; [discriminate|discriminate|contradiction].
Qed.

(* ================================================================= *)
(** ** How main ends *)

(** The three ways [main] ends when the bridge itself does not panic:
    the pull done, a stage before the pull failed, the pull failed. *)
Lemma main_outcome (adb : Bridge) (packageName deviceSerial : string) (w : World) :
  Devices adb <> Panic ->
  (forall device, Call adb device pmList <> Panic) ->
  let (status, w') := main adb packageName deviceSerial w in
  (exists device pkg w3,
      status = 0 /\ pulled w3 = pulled w /\
      Pull adb device (Path pkg) (Name pkg +++ ".apk") = None /\
      w' = printed (pullAsked w3 device pkg) [success]) \/
  (status = 1 /\ pulled w' = pulled w /\ exists e, reported e w') \/
  (exists device pkg w3 err,
      status = 1 /\ pulled w3 = pulled w /\
      Pull adb device (Path pkg) (Name pkg +++ ".apk") = Some err /\
      w' = logged (printed (pullAsked w3 device pkg) [failed]) [errorLine (pullFailed err)]).
Proof.
  intros Hdevices Hcall. unfold main.
  destruct (Devices adb) as [devices|err|]; [| |contradiction].
  2:{ unfold bind. rewrite printError_run. right. left.
      split; [reflexivity|]. split; [reflexivity|]. eexists. apply reported_logged_one. }
  unfold bind at 1.
  pose proof (getDevice_outcome deviceSerial devices w) as Hd.
  pose proof (getDevice_pulled deviceSerial devices w) as Hdp.
  destruct (getDevice deviceSerial devices w) as [[device|e|] w1]; [| |contradiction].
  2:{ right. left. cbn in *. eauto. }
  unfold bind at 1.
  pose proof (getPackageList_outcome adb device w1) as Hl.
  pose proof (getPackageList_pulled adb device w1) as Hlp.
  destruct (getPackageList adb device w1) as [[pkgs|e|] w2];
    [| |now apply Hcall in Hl].
  2:{ right. left. cbn in *. split; [reflexivity|]. split; [congruence|eauto]. }
  unfold bind at 1.
  pose proof (getPackage_outcome packageName pkgs w2) as Hp.
  pose proof (getPackage_pulled packageName pkgs w2) as Hpp.
  destruct (getPackage packageName pkgs w2) as [[pkg|e|] w3]; [| |contradiction].
  2:{ right. left. cbn in *. split; [reflexivity|]. split; [congruence|eauto]. }
  cbn [snd] in *. cbv zeta. unfold bind, DevicePull. rewrite Printf_run.
  cbn [printed stdin stdout stderr pulled].
  destruct (Pull adb device (Path pkg) (Name pkg +++ ".apk")) as [err|] eqn:Hpull.
  - cbv beta. rewrite Printf_run, printError_run. unfold ret.
    right. right. exists device, pkg, w3, err.
    split; [reflexivity|]. split; [congruence|]. split; [exact Hpull | reflexivity].
  - cbv beta. rewrite Printf_run. unfold ret.
    left. exists device, pkg, w3.
    split; [reflexivity|]. split; [congruence|]. split; [exact Hpull | reflexivity].
Qed.



(** X7: when [main] exits with status 1, the last line on the error
    stream is the error that stopped it. *)
Theorem main_failure_reported (adb : Bridge) (packageName deviceSerial : string) (w : World) :
  Devices adb <> Panic ->
  (forall device, Call adb device pmList <> Panic) ->
  fst (main adb packageName deviceSerial w) = 1 ->
  exists e, reported e (snd (main adb packageName deviceSerial w)).
Proof.
  intros Hdevices Hcall. pose proof (main_outcome adb packageName deviceSerial w Hdevices Hcall) as H.
  destruct (main adb packageName deviceSerial w) as [status w']. cbn [fst snd].
  destruct H as [(device & pkg & w3 & -> & _)
                | [(_ & _ & e & He) | (device & pkg & w3 & err & _ & _ & _ & ->)]].
  - discriminate.
  - intros _. now exists e.
  - intros _. exists (pullFailed err). apply reported_logged_one.
Qed.

Lemma main_failure_reported_witness :
  exists e, reported e (snd (main (Sample.bridge "package:/data/app/com.foo.apk=com.foo")
                                  "com.bar" "emulator-5554" (Sample.world []))).
Proof.
  exact (main_failure_reported (Sample.bridge "package:/data/app/com.foo.apk=com.foo")
           "com.bar" "emulator-5554" (Sample.world [])
           ltac:(discriminate) ltac:(intros; discriminate) eq_refl).
Defined.

(* ================================================================= *)
(** ** Reading the answer *)

Lemma ReadString_fill (delim : ascii) (w : World) :
  ReadString delim w
  = (fst (fill delim EmptyString (stdin w)),
     mkWorld (snd (fill delim EmptyString (stdin w))) (stdout w) (stderr w) (pulled w)).
Proof. unfold ReadString. now destruct (fill delim EmptyString (stdin w)) as [r rest]. Qed.

Lemma Cut_none_append (a b : string) (sep : ascii) :
  Cut a sep = None -> Cut b sep = None -> Cut (a +++ b) sep = None.
Proof.
  induction a as [|c a IH]; simpl; intros Ha Hb; [exact Hb|].
  destruct (Ascii.eqb c sep); [discriminate|].
  destruct (Cut a sep) as [[? ?]|]; [discriminate|]. now rewrite IH.
Qed.

Lemma fill_no_delim (delim : ascii) (reads : list string) :
  forall buf,
    Cut buf delim = None ->
    (forall chunk, In chunk reads -> Cut chunk delim = None) ->
    fill delim buf reads = (buf +++ String.concat EmptyString reads, Some EOF, []).
Proof.
  induction reads as [|chunk reads IH]; intros buf Hbuf Hreads.
  - cbn [fill]. rewrite Hbuf. cbn. now rewrite append_empty.
  - cbn [fill]. rewrite Hbuf. rewrite IH.
    + f_equal. f_equal. rewrite append_assoc. f_equal.
      destruct reads; [cbn; now rewrite append_empty | reflexivity].
    + apply Cut_none_append; [exact Hbuf|]. apply Hreads. now left.
    + intros c Hc. apply Hreads. now right.
Qed.

Lemma fill_found (delim : ascii) (buf line more : string) (reads : list string) :
  Cut buf delim = Some (line, more) ->
  fill delim buf reads = (line +++ String delim EmptyString, None, reads).
Proof. intros H. destruct reads; cbn [fill]; now rewrite H. Qed.

(** X8: an answer that is not ended by a line feed before the input
    ends is "Input cancelled", whatever was typed. *)
Theorem readInputNumber_unfinished (prompt : string) (min max : Z) (w : World) :
  (forall chunk, In chunk (stdin w) -> Cut chunk "010" = None) ->
  readInputNumber prompt min max w
  = (Err cancelled,
     logged (answered w [promptLine prompt min max] []) [errorLine cancelled]).
Proof.
  intros Hreads.
  assert (Hread : ReadString "010" (printed w [promptLine prompt min max])
                  = ((String.concat EmptyString (stdin w), Some EOF),
                     answered w [promptLine prompt min max] [])).
  { rewrite ReadString_fill. cbn [printed stdin stdout stderr pulled].
    now rewrite (fill_no_delim "010" (stdin w) EmptyString eq_refl Hreads). }
  destruct (readInputNumber_checks prompt min max w _ _ _ Hread) as (Hcancel & _).
  apply Hcancel. left. discriminate.
Qed.

Lemma readInputNumber_unfinished_witness :
  readInputNumber "Which device?" 0 4 (Sample.world ["2"])
  = (Err cancelled,
     logged (answered (Sample.world ["2"]) [promptLine "Which device?" 0 4] [])
            [errorLine cancelled]).
Proof.
  apply (readInputNumber_unfinished "Which device?" 0 4 (Sample.world ["2"])).
  intros chunk [<- | []]. reflexivity.
Defined.

(** X9: the reader made for one prompt takes a whole read of the
    input: the answer is the text up to the first line feed, and what
    follows it in the same read is gone for the next prompt. *)
Theorem readInputNumber_one_read
    (prompt : string) (min max : Z) (w : World)
    (chunk line more : string) (rest : list string) :
  stdin w = chunk :: rest ->
  Cut chunk "010" = Some (line, more) ->
  stdin (snd (readInputNumber prompt min max w)) = rest /\
  fst (readInputNumber prompt min max w)
  = fst (readInputNumber prompt min max
           (mkWorld [line +++ LF] (stdout w) (stderr w) (pulled w))).
Proof.
  intros Hstdin Hcut.
  assert (Hline : Cut (line +++ LF) "010" = Some (line, EmptyString)).
  { apply Cut_inv in Hcut as [_ Hline]. now apply Cut_append. }
  assert (Hread : ReadString "010" (printed w [promptLine prompt min max])
                  = ((line +++ LF, None), answered w [promptLine prompt min max] rest)).
  { rewrite ReadString_fill. cbn [printed stdin stdout stderr pulled]. rewrite Hstdin.
    cbn [fill Cut append].
    now rewrite (fill_found "010" chunk line more rest Hcut). }
  assert (Hread' : ReadString "010"
                     (printed (mkWorld [line +++ LF] (stdout w) (stderr w) (pulled w))
                              [promptLine prompt min max])
                   = ((line +++ LF, None), answered w [promptLine prompt min max] [])).
  { rewrite ReadString_fill. cbn [printed stdin stdout stderr pulled].
    cbn [fill Cut append]. now rewrite Hline. }
  unfold readInputNumber, bind. rewrite !Printf_run. fold (promptLine prompt min max).
  rewrite Hread, Hread'. cbv beta iota. cbn [orb].
  destruct (len (TrimSpace (line +++ LF)) =? 0).
  - unfold ret. rewrite !printError_run. now split.
  - destruct (strconv.Atoi (TrimSpace (line +++ LF))) as [index [e|]].
    + unfold ret. rewrite !printError_run. now split.
    + destruct ((index <? min) || (index >? max)).
      * unfold ret. rewrite !printError_run. now split.
      * now split.
Qed.

Lemma readInputNumber_one_read_witness :
  stdin (snd (readInputNumber "Which device?" 0 1
                (Sample.world ["1" +++ LF +++ "0" +++ LF; "5" +++ LF])))
  = ["5" +++ LF] /\
  fst (readInputNumber "Which device?" 0 1
         (Sample.world ["1" +++ LF +++ "0" +++ LF; "5" +++ LF]))
  = fst (readInputNumber "Which device?" 0 1 (Sample.world ["1" +++ LF])).
Proof.
  exact (readInputNumber_one_read "Which device?" 0 1
           (Sample.world ["1" +++ LF +++ "0" +++ LF; "5" +++ LF])
           ("1" +++ LF +++ "0" +++ LF) "1" ("0" +++ LF) ["5" +++ LF] eq_refl eq_refl).
Defined.

(* ================================================================= *)
(** ** The number typed selects the candidate listed under it *)

Lemma readInputNumber_typed
    (prompt : string) (min max : Z) (w : World) (input : string) (rest : list string) :
  fill "010" EmptyString (stdin w) = (input, None, rest) ->
  fitsInt (TrimSpace input) = true ->
  min <= numeralValue (TrimSpace input) <= max ->
  readInputNumber prompt min max w
  = (Ok (numeralValue (TrimSpace input)), answered w [promptLine prompt min max] rest).
Proof.
  intros Hfill Hfits Hrange.
  assert (Hread : ReadString "010" (printed w [promptLine prompt min max])
                  = ((input, None), answered w [promptLine prompt min max] rest)).
  { rewrite ReadString_fill. cbn [printed stdin stdout stderr pulled]. now rewrite Hfill. }
  destruct (readInputNumber_checks prompt min max w _ _ _ Hread) as (_ & _ & _ & Hok).
  pose proof (Atoi_fitsInt (TrimSpace input)) as HA.
  destruct (strconv.Atoi (TrimSpace input)) as [index [e|]] eqn:E; [congruence|].
  destruct HA as [_ ->]. apply Hok; auto.
  intros Hempty. rewrite Hempty in Hfits. discriminate.
Qed.

Lemma at_index_nth {A : Type} (xs : list A) (i : nat) (x : A) :
  nth_error xs i = Some x -> at_index xs (Z.of_nat i) = Ok x.
Proof.
  intros H. unfold at_index.
  assert (Hi : (i < List.length xs)%nat) by (apply nth_error_Some; congruence).
  replace ((Z.of_nat i <? 0) || (Z.of_nat i >=? Z.of_nat (List.length xs))) with false.
  - now rewrite Nat2Z.id, H.
  - symmetry. apply orb_false_iff. split; [apply Z.ltb_ge; lia|].
    rewrite Z.geb_leb. apply Z.leb_gt. lia.
Qed.

Lemma deviceListing_nth (devices : list Device) :
  forall k i device,
    nth_error devices i = Some device ->
    nth_error (deviceListing k devices) i
    = Some (menuLine (k + Z.of_nat i) (Serial device) (State device)).
Proof.
  induction devices as [|d devices IH]; intros k i device H; [now destruct i|].
  destruct i as [|i]; cbn [nth_error deviceListing] in *.
  - inversion H; subst. now rewrite Z.add_0_r.
  - rewrite (IH (k + 1) i device H). do 2 f_equal. lia.
Qed.

Lemma packageListing_nth (pkgs : list Package) :
  forall k i pkg,
    nth_error pkgs i = Some pkg ->
    nth_error (packageListing k pkgs) i
    = Some (menuLine (k + Z.of_nat i) (Name pkg) (Path pkg)).
Proof.
  induction pkgs as [|p pkgs IH]; intros k i pkg H; [now destruct i|].
  destruct i as [|i]; cbn [nth_error packageListing] in *.
  - inversion H; subst. now rewrite Z.add_0_r.
  - rewrite (IH (k + 1) i pkg H). do 2 f_equal. lia.
Qed.

(** X10: with no serial asked for and not exactly one device, the
    devices are listed under the numbers 0, 1, 2, ... and the number
    typed selects the device listed under it. *)
Theorem getDevice_typed
    (devices : list Device) (w : World) (i : nat) (device : Device)
    (input : string) (rest : list string) :
  List.length devices <> 1%nat ->
  nth_error devices i = Some device ->
  fill "010" EmptyString (stdin w) = (input, None, rest) ->
  fitsInt (TrimSpace input) = true ->
  numeralValue (TrimSpace input) = Z.of_nat i ->
  nth_error (deviceListing 0 devices) i
  = Some (menuLine (Z.of_nat i) (Serial device) (State device)) /\
  getDevice EmptyString devices w
  = (Ok device,
     answered w (devicesHeader :: deviceListing 0 devices
                 ++ [promptLine "Which device?" 0 (Z.of_nat (List.length devices) - 1)]) rest).
Proof.
  intros Hlen Hnth Hfill Hfits Hvalue. split.
  - now rewrite (deviceListing_nth devices 0 i device Hnth).
  - rewrite (getDevice_choice devices w Hlen).
    assert (Hi : (i < List.length devices)%nat) by (apply nth_error_Some; congruence).
    rewrite (readInputNumber_typed _ _ _ _ input rest); [|exact Hfill|exact Hfits|lia].
    rewrite Hvalue, (at_index_nth devices i device Hnth).
    unfold answered, printed. cbn [stdin stdout stderr pulled].
    fold devicesHeader. now rewrite <- app_assoc.
Qed.

Lemma getDevice_typed_witness :
  nth_error (deviceListing 0 [Sample.nexus; Sample.emulator]) 1
  = Some (menuLine 1 "emulator-5554" "device") /\
  fst (getDevice EmptyString [Sample.nexus; Sample.emulator] (Sample.world [" 1 " +++ LF]))
  = Ok Sample.emulator.
Proof.
  destruct (getDevice_typed [Sample.nexus; Sample.emulator] (Sample.world [" 1 " +++ LF])
              1 Sample.emulator (" 1 " +++ LF) []
              ltac:(discriminate) eq_refl eq_refl eq_refl eq_refl) as [Hlist Hget].
  split; [exact Hlist | now rewrite Hget].
Defined.

(** X11: with no name asked for, the packages are listed under the
    numbers 0, 1, 2, ... and the number typed selects the package listed
    under it; a single package is listed and asked for like any other. *)
Theorem getPackage_typed
    (pkgs : list Package) (w : World) (i : nat) (pkg : Package)
    (input : string) (rest : list string) :
  nth_error pkgs i = Some pkg ->
  fill "010" EmptyString (stdin w) = (input, None, rest) ->
  fitsInt (TrimSpace input) = true ->
  numeralValue (TrimSpace input) = Z.of_nat i ->
  nth_error (packageListing 0 pkgs) i
  = Some (menuLine (Z.of_nat i) (Name pkg) (Path pkg)) /\
  getPackage EmptyString pkgs w
  = (Ok pkg,
     answered w (packagesHeader :: packageListing 0 pkgs
                 ++ [promptLine "Which package?" 0 (Z.of_nat (List.length pkgs) - 1)]) rest).
Proof.
  intros Hnth Hfill Hfits Hvalue. split.
  - now rewrite (packageListing_nth pkgs 0 i pkg Hnth).
  - rewrite (getPackage_choice pkgs w).
    assert (Hi : (i < List.length pkgs)%nat) by (apply nth_error_Some; congruence).
    rewrite (readInputNumber_typed _ _ _ _ input rest); [|exact Hfill|exact Hfits|lia].
    rewrite Hvalue, (at_index_nth pkgs i pkg Hnth).
    unfold answered, printed. cbn [stdin stdout stderr pulled].
    fold packagesHeader. now rewrite <- app_assoc.
Qed.

Lemma getPackage_typed_witness :
  nth_error (packageListing 0 [Sample.foo]) 0
  = Some (menuLine 0 "com.foo" "/data/app/com.foo.apk") /\
  fst (getPackage EmptyString [Sample.foo] (Sample.world ["0" +++ LF])) = Ok Sample.foo.
Proof.
  destruct (getPackage_typed [Sample.foo] (Sample.world ["0" +++ LF])
              0 Sample.foo ("0" +++ LF) [] eq_refl eq_refl eq_refl eq_refl) as [Hlist Hget].
  split; [exact Hlist | now rewrite Hget].
Defined.

(* ================================================================= *)
(** ** The command line *)

Lemma Parse_not_dashed (s : string) (args : list string) (vars : Globals) :
  dashed s = false -> flag.Parse (s :: args) vars = flag.Done vars (s :: args).
Proof.
  destruct s as [|c0 [|c1 s2]]; try reflexivity.
  cbn [dashed flag.Parse]. now intros ->.
Qed.

(** X12: called as [<program> <package> <serial>], the package not
    being written like a flag, the program takes the package name and
    the serial from the two positions; a missing serial is the empty
    one, and nothing after the package is read as a flag. *)
Theorem configure_positional (program package : string) (rest : list string) :
  dashed package = false ->
  configure (program :: package :: rest)
  = flag.Done (mkGlobals package (nth 0 rest EmptyString)) (package :: rest).
Proof.
  intros Hpkg. unfold configure. cbn [tl]. rewrite (Parse_not_dashed _ _ _ Hpkg).
  f_equal. unfold init. destruct rest as [|serial rest]; [reflexivity|].
  cbn [nth].
  replace (Z.of_nat (List.length (program :: package :: serial :: rest)) >? 1) with true
    by (symmetry; apply Z.gtb_lt; cbn [List.length]; lia).
  replace (Z.of_nat (List.length (program :: package :: serial :: rest)) >? 2) with true
    by (symmetry; apply Z.gtb_lt; cbn [List.length]; lia).
  reflexivity.
Qed.

Lemma configure_positional_witness :
  configure ["puller"; "com.foo"; "emulator-5554"]
  = flag.Done (mkGlobals "com.foo" "emulator-5554") ["com.foo"; "emulator-5554"] /\
  configure ["puller"; "com.foo"; "-device=emulator-5554"]
  = flag.Done (mkGlobals "com.foo" "-device=emulator-5554") ["com.foo"; "-device=emulator-5554"].
Proof.
  split.
  - exact (configure_positional "puller" "com.foo" ["emulator-5554"] eq_refl).
  - exact (configure_positional "puller" "com.foo" ["-device=emulator-5554"] eq_refl).
Defined.

(** X13: with both flags given, in either order, the globals are the
    values of the flags: the defaults taken from the argument positions
    are overwritten. *)
Theorem configure_flags (program package serial : string) :
  configure [program; "-package=" +++ package; "-device=" +++ serial]
  = flag.Done (mkGlobals package serial) [] /\
  configure [program; "-device=" +++ serial; "-package=" +++ package]
  = flag.Done (mkGlobals package serial) [].
Proof. split; reflexivity. Qed.

(** X14: with the flag [-device] alone, the text of that argument is
    the package name the program looks for, and unless a package has
    that name the package selection fails without a prompt; with
    [-package] and its value as two arguments, the value is also the
    serial looked for. *)
Theorem configure_one_flag (program value : string) (pkgs : list Package) (w : World) :
  configure [program; "-device=" +++ value]
  = flag.Done (mkGlobals ("-device=" +++ value) value) [] /\
  configure [program; "-package"; value] = flag.Done (mkGlobals value value) [] /\
  ((forall pkg, In pkg pkgs -> Name pkg <> "-device=" +++ value) ->
   getPackage ("-device=" +++ value) pkgs w
   = (Err (notLocated ("-device=" +++ value)),
      logged w [errorLine (notLocated ("-device=" +++ value))])).
Proof.
  split; [reflexivity|]. split; [reflexivity|].
  intros Hnone. apply getPackage_missing; [discriminate|].
  now apply name_differs.
Qed.

Lemma configure_one_flag_witness :
  getPackage "-device=emulator-5554" [Sample.foo; Sample.bar] (Sample.world ["0" +++ LF])
  = (Err (notLocated "-device=emulator-5554"),
     logged (Sample.world ["0" +++ LF]) [errorLine (notLocated "-device=emulator-5554")]).
Proof.
  apply (proj2 (proj2 (configure_one_flag "puller" "emulator-5554" [Sample.foo; Sample.bar]
                         (Sample.world ["0" +++ LF])))).
  intros pkg [<- | [<- | []]]; discriminate.
Defined.

(* ================================================================= *)
(** ** Runs of main *)

(** X15: when the bridge lists no device, [main] still asks "Which
    device?" and then exits with status 1 whatever is typed, an error
    reported and no pull asked. *)
Theorem main_no_devices (adb : Bridge) (packageName deviceSerial : string) (w : World) :
  Devices adb = Ok [] ->
  exists e w',
    main adb packageName deviceSerial w = (1, w') /\
    reported e w' /\
    pulled w' = pulled w /\
    In (promptLine "Which device?" 0 (-1)) (stdout w').
Proof.
  intros Hdevices. unfold main. rewrite Hdevices. unfold bind.
  pose proof (getDevice_outcome deviceSerial [] w) as Ho.
  pose proof (getDevice_pulled deviceSerial [] w) as Hp.
  pose proof (getDevice_In deviceSerial [] w) as Hin.
  assert (Hprompt : In (promptLine "Which device?" 0 (-1))
                       (stdout (snd (getDevice deviceSerial [] w)))).
  { assert (Hchoose : forall w0, In (promptLine "Which device?" 0 (-1))
                                    (stdout (snd (getDevice EmptyString [] w0)))).
    { intros w0. rewrite getDevice_choice by discriminate.
      pose proof (readInputNumber_keeps "Which device?" 0 (Z.of_nat (@List.length Device []) - 1)
                    (printed w0 (mkFmt ("Devices:" +++ LF) [] :: deviceListing 0 []))) as [Hout _].
      destruct (readInputNumber _ _ _ _) as [r w2]. cbn [snd] in *. rewrite Hout.
      apply in_or_app. right. now left. }
    destruct deviceSerial as [|c s] eqn:Es; [apply Hchoose|]. rewrite <- Es.
    assert (Hs : deviceSerial <> EmptyString) by (subst; discriminate).
    rewrite (getDevice_warned deviceSerial [] w Hs eq_refl). apply Hchoose. }
  destruct (getDevice deviceSerial [] w) as [[device|e|] w1].
  - destruct (Hin device w1 eq_refl).
  - exists e, w1. cbn [snd] in *. auto.
  - contradiction.
Qed.

Lemma main_no_devices_witness :
  exists e w',
    main (mkBridge (Ok []) (fun _ _ => Ok EmptyString) (fun _ _ _ => None))
         EmptyString EmptyString (Sample.world ["0" +++ LF]) = (1, w') /\
    reported e w' /\
    pulled w' = [] /\
    In (promptLine "Which device?" 0 (-1)) (stdout w').
Proof.
  exact (main_no_devices (mkBridge (Ok []) (fun _ _ => Ok EmptyString) (fun _ _ _ => None))
           EmptyString EmptyString (Sample.world ["0" +++ LF]) eq_refl).
Defined.

Lemma getPackageList_ok_world (adb : Bridge) (device : Device) (w : World)
    (pkgs : list Package) (w' : World) :
  getPackageList adb device w = (Ok pkgs, w') ->
  stdin w' = stdin w /\ stdout w' = stdout w.
Proof.
  destruct (Call adb device pmList) as [data|err|] eqn:Hcall.
  - rewrite (getPackageList_run adb device data w Hcall). cbv zeta.
    destruct (records (Split data "010")); [discriminate|].
    intros H. inversion H; subst. now split.
  - unfold getPackageList. fold pmList. rewrite Hcall. discriminate.
  - unfold getPackageList. fold pmList. rewrite Hcall. discriminate.
Qed.

(** X16: called with a serial that a device has and a name that a
    package of that device has, [main] reads nothing and prints no
    listing and no prompt: it announces the pull, asks it of the first
    device with that serial for the first package with that name, and
    reports "Success" or "Failed". *)
Theorem main_unattended
    (adb : Bridge) (packageName deviceSerial : string) (w : World)
    (devices : list Device) (device : Device)
    (pkgs : list Package) (w2 : World) (pkg : Package) :
  packageName <> EmptyString -> deviceSerial <> EmptyString ->
  Devices adb = Ok devices ->
  find (fun device => String.eqb (Serial device) deviceSerial) devices = Some device ->
  getPackageList adb device w = (Ok pkgs, w2) ->
  find (fun pkg => String.eqb (Name pkg) packageName) pkgs = Some pkg ->
  let apkName := Name pkg +++ ".apk" in
  let w' := snd (main adb packageName deviceSerial w) in
  stdin w' = stdin w /\
  pulled w' = pulled w ++ [mkPull device (Path pkg) apkName] /\
  match Pull adb device (Path pkg) apkName with
  | None => fst (main adb packageName deviceSerial w) = 0 /\
            stdout w' = stdout w ++ [pulling apkName; success]
  | Some _ => fst (main adb packageName deviceSerial w) = 1 /\
              stdout w' = stdout w ++ [pulling apkName; failed]
  end.
Proof.
  intros Hname Hserial Hdevices Hdevice Hlist Hpkg apkName.
  destruct (getPackageList_ok_world adb device w pkgs w2 Hlist) as [Hin Hout].
  pose proof (getPackageList_pulled adb device w) as Hpulled. rewrite Hlist in Hpulled.
  cbn [snd] in Hpulled.
  assert (Hmain : main adb packageName deviceSerial w
                  = match Pull adb device (Path pkg) apkName with
                    | None => (0, printed (pullAsked w2 device pkg) [success])
                    | Some err =>
                        (1, logged (printed (pullAsked w2 device pkg) [failed])
                                   [errorLine (pullFailed err)])
                    end).
  { unfold main. rewrite Hdevices. unfold bind at 1.
    rewrite (getDevice_located deviceSerial devices device w Hserial Hdevice).
    unfold bind at 1. rewrite Hlist. unfold bind at 1.
    rewrite (getPackage_located packageName pkgs pkg w2 Hname Hpkg).
    cbv zeta. unfold bind, DevicePull. rewrite Printf_run.
    cbn [printed stdin stdout stderr pulled]. fold apkName.
    destruct (Pull adb device (Path pkg) apkName) as [err|].
    - now rewrite Printf_run, printError_run.
    - now rewrite Printf_run. }
  cbv zeta. rewrite Hmain.
  destruct (Pull adb device (Path pkg) apkName) as [err|];
    cbn [fst snd logged printed pullAsked stdin stdout stderr pulled];
    fold apkName; rewrite Hin, Hout, Hpulled, <- app_assoc; auto.
Qed.

Lemma main_unattended_witness :
  let adb := Sample.bridge ("package:/data/app/com.bar.apk=com.bar" +++ LF +++
                            "package:/data/app/com.foo.apk=com.foo" +++ LF) in
  let w := Sample.world ["7" +++ LF] in
  let w' := snd (main adb "com.foo" "emulator-5554" w) in
  stdin w' = ["7" +++ LF] /\
  pulled w' = [] ++ [mkPull Sample.emulator "/data/app/com.foo.apk" "com.foo.apk"] /\
  fst (main adb "com.foo" "emulator-5554" w) = 0 /\
  stdout w' = [] ++ [pulling "com.foo.apk"; success].
Proof.
  exact (main_unattended
           (Sample.bridge ("package:/data/app/com.bar.apk=com.bar" +++ LF +++
                           "package:/data/app/com.foo.apk=com.foo" +++ LF))
           "com.foo" "emulator-5554" (Sample.world ["7" +++ LF])
           [Sample.nexus; Sample.emulator] Sample.emulator
           [Sample.bar; Sample.foo] _ Sample.foo
           ltac:(discriminate) ltac:(discriminate) eq_refl eq_refl eq_refl eq_refl).
Defined.
